(** * Invoice dashboard (app.py): a shallow embedding and its properties

    The program loads a table of invoices into a pandas DataFrame and
    derives four views from it: a payment ranking, a list of anomaly
    messages, a cash-flow risk summary and a 30-day forecast.

    Conventions of the embedding:
    - a date cell is the timestamp pandas parses it to, an integer count
      of nanoseconds: every row is well-typed, so the failures of
      [read_csv] and of date parsing are outside the model, and so is
      the change of a column from text to timestamps that line 46
      makes on the frame;
    - an amount is an exact rational and [sum_amounts], [quantile] and
      the risk threshold compute exactly, where the library computes in
      int64 or float64.  A statement either relates the values the
      functions return, which holds in any of these arithmetics, or
      carries the hypothesis [sums_are_exact], under which the
      library's sums are the exact ones;
    - an invoice id is the text [astype(str)] renders it to;
    - the DataFrame [df] that [main] passes to every function is one
      mutable object: a function that assigns a column returns the new
      state of that object next to its result. *)

From Stdlib Require Import ZArith QArith Qround Qabs List String Ascii Bool Lia Lqa.
From Stdlib Require Import Permutation Sorted.
Import ListNotations.

Local Open Scope string_scope.
Local Open Scope Z_scope.

(** ** Data model *)

Definition Timestamp := Z.

(** One day, in the unit of [Timestamp]. *)
Definition ns_per_day : Z := 86400 * 1000000000.

(** A row of invoices.csv: the six columns [main] reads. *)
Record InvoiceRecord := mkInvoice {
  Invoice_ID : string;
  Supplier_Name : string;
  Invoice_Date : Timestamp;
  Due_Date : Timestamp;
  Amount : Q;
  Status : string
}.

(** A row once [prioritize_payments] has assigned its two columns. *)
Record PrioritizedRow := mkPrioritized {
  base : InvoiceRecord;
  Due_In_Days : Z;
  Priority : string
}.

(** The DataFrame object.  It has either the six columns of the file or,
    after lines 15-16 ran on it, those six and the two computed ones. *)
Inductive DataFrame :=
| Loaded (rows : list InvoiceRecord)
| Annotated (rows : list PrioritizedRow).

(** The six file columns of every row, in row order. *)
Definition records (df : DataFrame) : list InvoiceRecord :=
  match df with
  | Loaded rows => rows
  | Annotated rows => map base rows
  end.

(** Python exceptions the program can end with, together with the two
    error names the specification gives to forecast failures. *)
Inductive exn :=
| KeyError (key : string)
| ValueError (msg : string)
| InsufficientDataError
| FittingError.

Inductive outcome (A : Type) :=
| Returns (a : A)
| Raises (e : exn).
Arguments Returns {A} a.
Arguments Raises {A} e.

(** A computation on the shared frame: result and the frame afterwards. *)
Definition Py (A : Type) := DataFrame -> outcome A * DataFrame.

Definition ret {A} (a : A) : Py A := fun df => (Returns a, df).
Definition raise {A} (e : exn) : Py A := fun df => (Raises e, df).
Definition bind {A B} (m : Py A) (k : A -> Py B) : Py B :=
  fun df => match m df with
            | (Returns a, df') => k a df'
            | (Raises e, df') => (Raises e, df')
            end.
Definition get_frame : Py DataFrame := fun df => (Returns df, df).
Definition put_frame (df' : DataFrame) : Py unit := fun _ => (Returns tt, df').
Definition lift {A} (o : outcome A) : Py A := fun df => (o, df).

Notation "x <- m ;; k" := (bind m (fun x => k))
  (at level 61, m at next level, right associativity).
Notation "m ;;; k" := (bind m (fun _ => k))
  (at level 61, right associativity).

(** ** prioritize_payments (lines 14-18) *)

(** [Timedelta.days]: whole days, rounded towards minus infinity. *)
Definition dt_days (delta : Z) : Z := delta / ns_per_day.

(** One cell of [np.where(c, x, y)]. *)
Definition np_where {A} (c : bool) (x y : A) : A := if c then x else y.

(** Line 15, the value assigned to column Due_In_Days. *)
Definition due_in_days_column (now : Timestamp) (recs : list InvoiceRecord) : list Z :=
  map (fun d => dt_days (d - now)) (map Due_Date recs).

(** Lines 16-17, one cell of the value assigned to column Priority. *)
Definition priority_of (due : Z) : string :=
  np_where (due <? 5) "High" (np_where (due <? 10) "Medium" "Low").

Definition priority_column (due : list Z) : list string := map priority_of due.

(** [df[c1] = v1; df[c2] = v2] for the two computed columns. *)
Definition assign_computed (recs : list InvoiceRecord) (due : list Z)
    (prio : list string) : DataFrame :=
  Annotated (map (fun t => mkPrioritized (fst t) (fst (snd t)) (snd (snd t)))
                 (combine recs (combine due prio))).

(** The order [sort_values] compares two rows by: column Priority first,
    as text, then column Due_In_Days. *)
Definition key_leb (a b : PrioritizedRow) : bool :=
  match String.compare (Priority a) (Priority b) with
  | Lt => true
  | Gt => false
  | Eq => Due_In_Days a <=? Due_In_Days b
  end.

(** [sort_values] with several keys is a stable sort; insertion from the
    right keeps rows of equal keys in their input order. *)
Fixpoint insert_row (x : PrioritizedRow) (l : list PrioritizedRow) : list PrioritizedRow :=
  match l with
  | [] => [x]
  | y :: l' => if key_leb x y then x :: l else y :: insert_row x l'
  end.

Fixpoint sort_values (l : list PrioritizedRow) : list PrioritizedRow :=
  match l with
  | [] => []
  | x :: l' => insert_row x (sort_values l')
  end.

(** The function.  It assigns both columns on [df] itself and returns a
    new, sorted frame. *)
Definition prioritize_payments (now : Timestamp) : Py (list PrioritizedRow) :=
  df <- get_frame ;;
  let recs := records df in
  let due := due_in_days_column now recs in
  let prio := priority_column due in
  put_frame (assign_computed recs due prio) ;;;
  df' <- get_frame ;;
  match df' with
  | Annotated rows => ret (sort_values rows)
  | Loaded _ => raise (KeyError "Priority")
  end.

(** ** detect_anomalies (lines 21-31) *)

(** [df[mask]]: the rows whose mask cell is True, in row order. *)
Fixpoint select {A} (mask : list bool) (l : list A) : list A :=
  match mask, l with
  | b :: mask', x :: l' => if b then x :: select mask' l' else select mask' l'
  | _, _ => []
  end.

(** [duplicated(keep=False)] on one column: a cell is marked when the same
    value stands in another row, before it or after it. *)
Fixpoint duplicated_from (seen ids : list string) : list bool :=
  match ids with
  | [] => []
  | i :: rest =>
      (existsb (String.eqb i) seen || existsb (String.eqb i) rest)
        :: duplicated_from (i :: seen) rest
  end.

Definition duplicated (ids : list string) : list bool := duplicated_from [] ids.

(** Ascending sort of a numeric column, as [quantile] does first. *)
Fixpoint insert_amount (x : Q) (l : list Q) : list Q :=
  match l with
  | [] => [x]
  | y :: l' => if Qle_bool x y then x :: l else y :: insert_amount x l'
  end.

Fixpoint sort_amounts (l : list Q) : list Q :=
  match l with
  | [] => []
  | x :: l' => insert_amount x (sort_amounts l')
  end.

(** [Series.quantile(q)], pandas' default linear interpolation: with the
    [n] values ascending, the position is [q * (n - 1)] and the result lies
    between its two neighbours.  [None] is the NaN of an empty column.
    The interpolation is exact; the library rounds it to float64. *)
Definition quantile (q : Q) (vals : list Q) : option Q :=
  match vals with
  | [] => None
  | _ =>
      let sorted := sort_amounts vals in
      let n := Z.of_nat (List.length vals) in
      let pos := (q * inject_Z (n - 1))%Q in
      let lo := Qfloor pos in
      let hi := Z.min (lo + 1) (n - 1) in
      let frac := (pos - inject_Z lo)%Q in
      let a := nth (Z.to_nat lo) sorted 0%Q in
      let b := nth (Z.to_nat hi) sorted 0%Q in
      Some (a + (b - a) * frac)%Q
  end.

(** [x > threshold] on a cell; False against NaN. *)
Definition gt_threshold (threshold : option Q) (x : Q) : bool :=
  match threshold with
  | Some t => negb (Qle_bool x t)
  | None => false
  end.

(** [", ".join(rows['Invoice_ID'].astype(str))] *)
Definition join_ids (rows : list InvoiceRecord) : string :=
  String.concat ", " (map Invoice_ID rows).

Definition duplicate_prefix : string := "Duplicate invoices detected: ".
Definition high_amount_prefix : string := "Unusually high amounts detected in invoices: ".

(** Line 24. *)
Definition duplicates (df : DataFrame) : list InvoiceRecord :=
  select (duplicated (map Invoice_ID (records df))) (records df).

(** Line 28. *)
Definition high_amounts (df : DataFrame) : list InvoiceRecord :=
  let amounts := map Amount (records df) in
  select (map (gt_threshold (quantile (95 # 100) amounts)) amounts) (records df).

Definition is_empty {A} (l : list A) : bool :=
  match l with [] => true | _ => false end.

Definition detect_anomalies (df : DataFrame) : list string :=
  let anomalies := [] in
  let anomalies :=
    if negb (is_empty (duplicates df))
    then (anomalies ++ [String.append duplicate_prefix (join_ids (duplicates df))])%list
    else anomalies in
  let anomalies :=
    if negb (is_empty (high_amounts df))
    then (anomalies ++ [String.append high_amount_prefix (join_ids (high_amounts df))])%list
    else anomalies in
  anomalies.

(** ** forecast_cash_flow_risks (lines 34-41) *)

Record CashFlowRisk := mkRisk {
  Total_Pending_Amount : Q;
  Amount_Due_Soon : Q;
  Risk_Level : string
}.

(** [df['Due_In_Days']]: present only on a frame the two columns were
    assigned on. *)
Definition getitem_Due_In_Days (df : DataFrame) : outcome (list Z) :=
  match df with
  | Loaded _ => Raises (KeyError "Due_In_Days")
  | Annotated rows => Returns (map Due_In_Days rows)
  end.

(** [Series.sum()]; 0 on an empty selection.  The sum is the exact one;
    the library's int64 sum is [sum_int64] below, and the two agree on
    amounts that are [sums_are_exact]. *)
Definition sum_amounts (l : list Q) : Q := fold_right Qplus 0%Q l.

(** [df['Status'] == 'Pending'] *)
Definition pending_mask (df : DataFrame) : list bool :=
  map (fun s => String.eqb s "Pending") (map Status (records df)).

(** Cell-wise [&] of two masks. *)
Fixpoint mask_and (m1 m2 : list bool) : list bool :=
  match m1, m2 with
  | b1 :: m1', b2 :: m2' => (b1 && b2) :: mask_and m1' m2'
  | _, _ => []
  end.

Definition forecast_cash_flow_risks (df : DataFrame) : outcome CashFlowRisk :=
  let total_pending := sum_amounts (select (pending_mask df) (map Amount (records df))) in
  match getitem_Due_In_Days df with
  | Raises e => Raises e
  | Returns due =>
      let mask := mask_and (map (fun d => d <? 10) due) (pending_mask df) in
      let due_soon := sum_amounts (select mask (map Amount (records df))) in
      Returns {| Total_Pending_Amount := total_pending;
                 Amount_Due_Soon := due_soon;
                 Risk_Level :=
                   if negb (Qle_bool due_soon ((5 # 10) * total_pending))
                   then "High" else "Low" |}
  end.

(** ** forecast_future_payments (lines 44-58) *)

(** [pd.to_datetime] on a cell, which the model holds as the timestamp
    it parses to.  That line 46 turns the cells of the column from text
    into timestamps on the caller's frame is not recorded. *)
Definition to_datetime (t : Timestamp) : Timestamp := t.

Definition with_Invoice_Date (r : InvoiceRecord) (d : Timestamp) : InvoiceRecord :=
  mkInvoice (Invoice_ID r) (Supplier_Name r) d (Due_Date r) (Amount r) (Status r).

(** Line 46, [df['Invoice_Date'] = col]: assigned on [df] itself. *)
Definition assign_Invoice_Date (df : DataFrame) (col : list Timestamp) : DataFrame :=
  match df with
  | Loaded rows =>
      Loaded (map (fun t => with_Invoice_Date (fst t) (snd t)) (combine rows col))
  | Annotated rows =>
      Annotated (map (fun t => mkPrioritized (with_Invoice_Date (base (fst t)) (snd t))
                                             (Due_In_Days (fst t)) (Priority (fst t)))
                     (combine rows col))
  end.

(** One step of [groupby(key).sum()]: the groups are kept by ascending key,
    a key already present accumulates. *)
Fixpoint add_to_group (k : Timestamp) (v : Q) (groups : list (Timestamp * Q))
    : list (Timestamp * Q) :=
  match groups with
  | [] => [(k, v)]
  | (k', s) :: rest =>
      if k <? k' then (k, v) :: groups
      else if k =? k' then (k', (s + v)%Q) :: rest
      else (k', s) :: add_to_group k v rest
  end.

(** [groupby('Invoice_Date')['Amount'].sum().reset_index()], columns
    renamed to [ds] and [y]. *)
Definition groupby_sum (cells : list (Timestamp * Q)) : list (Timestamp * Q) :=
  fold_left (fun groups kv => add_to_group (fst kv) (snd kv) groups) cells [].

(** Line 47: the daily series of pending amounts. *)
Definition daily_pending (df : DataFrame) : list (Timestamp * Q) :=
  groupby_sum (select (pending_mask df)
                      (map (fun r => (Invoice_Date r, Amount r)) (records df))).

(** A row of the frame [predict] returns, restricted to the four columns
    [main] shows. *)
Record ForecastRow := mkForecast {
  ds : Timestamp;
  yhat : Q;
  yhat_lower : Q;
  yhat_upper : Q
}.

(** Row-wise reading of the mask [df['Status'] == 'Pending']. *)
Definition is_pending (r : InvoiceRecord) : bool := String.eqb (Status r) "Pending".

(** The dates of the Pending rows, and how many different ones there are. *)
Definition pending_dates (df : DataFrame) : list Timestamp :=
  map Invoice_Date (filter is_pending (records df)).

Definition distinct_pending_dates (df : DataFrame) : nat :=
  List.length (nodup Z.eq_dec (pending_dates df)).

(** The 30 daily dates after [last], as [make_future_dataframe] lays them
    out with its default frequency. *)
Definition following_days (last : Timestamp) (periods : nat) : list Timestamp :=
  map (fun k => last + Z.of_nat k * ns_per_day) (seq 1 periods).

Section Forecaster.

(** The forecasting library (class Prophet) is not part of the program;
    the three methods the program calls are taken as parameters. *)
Variable Model : Type.
Variable fit : list (Timestamp * Q) -> outcome Model.
Variable history_dates : Model -> list Timestamp.
Variable make_future_dataframe : Model -> nat -> list Timestamp.
Variable predict : Model -> list Timestamp -> outcome (list ForecastRow).

Definition forecast_future_payments : Py (list ForecastRow * Model) :=
  df <- get_frame ;;
  put_frame (assign_Invoice_Date df (map to_datetime (map Invoice_Date (records df)))) ;;;
  df <- get_frame ;;
  model <- lift (fit (daily_pending df)) ;;
  let future := make_future_dataframe model 30 in
  forecast <- lift (predict model future) ;;
  ret (forecast, model).

(** What the library documents of these methods.  [fit] refuses a history
    of fewer than two rows and otherwise remembers its dates;
    [make_future_dataframe] returns those dates followed by the next
    [periods] days; [predict] returns one row per date it is given. *)
Record prophet_contract : Prop := {
  fit_needs_two_rows : forall history,
    (List.length history < 2)%nat ->
    fit history = Raises (ValueError "Dataframe has less than 2 non-NaN rows.");
  fit_keeps_dates : forall history m,
    fit history = Returns m ->
    StronglySorted Z.lt (map fst history) ->
    history_dates m = map fst history;
  future_dates : forall m periods,
    make_future_dataframe m periods =
    (history_dates m ++ following_days (last (history_dates m) 0) periods)%list;
  predict_row_per_date : forall m dates rows,
    predict m dates = Returns rows -> map ds rows = dates
}.

End Forecaster.

(** ** main (lines 66-89): the calls made on every render, in order *)

Definition render (now : Timestamp)
    : Py (list PrioritizedRow * list string * CashFlowRisk) :=
  prioritized_df <- prioritize_payments now ;;
  df <- get_frame ;;
  let anomalies := detect_anomalies df in
  cash_flow_risks <- lift (forecast_cash_flow_risks df) ;;
  ret (prioritized_df, anomalies, cash_flow_risks).

(** ** Row-wise reading of the two computed columns *)

(** The row [prioritize_payments] makes of a record. *)
Definition annotate_row (now : Timestamp) (r : InvoiceRecord) : PrioritizedRow :=
  let due := dt_days (Due_Date r - now) in
  mkPrioritized r due (priority_of due).

Definition annotate (now : Timestamp) (recs : list InvoiceRecord) : list PrioritizedRow :=
  map (annotate_row now) recs.

(** The relation [sort_values] sorts by. *)
Definition key_le (a b : PrioritizedRow) : Prop := key_leb a b = true.

(** The order the specification asks for, following its words: rank High
    before Medium before Low, then Due_In_Days ascending. *)
Definition spec_rank (p : string) : Z :=
  if String.eqb p "High" then 0
  else if String.eqb p "Medium" then 1
  else 2.

Definition spec_le (a b : PrioritizedRow) : Prop :=
  spec_rank (Priority a) < spec_rank (Priority b) \/
  (spec_rank (Priority a) = spec_rank (Priority b) /\ Due_In_Days a <= Due_In_Days b).

(** Row-wise reading of the mask of line 36 on a frame that has the
    computed columns. *)
Definition is_due_soon (row : PrioritizedRow) : bool :=
  (Due_In_Days row <? 10) && is_pending (base row).

(** The ids of the rows whose id stands in at least two rows, one entry
    per row, in row order. *)
Definition repeated_ids (ids : list string) : list string :=
  filter (fun i => (2 <=? count_occ string_dec ids i)%nat) ids.

(** The two sums of lines 35-36, read row by row. *)
Definition total_pending_of (rows : list PrioritizedRow) : Q :=
  sum_amounts (map (fun row => Amount (base row))
                   (filter (fun row => is_pending (base row)) rows)).

Definition due_soon_of (rows : list PrioritizedRow) : Q :=
  sum_amounts (map (fun row => Amount (base row)) (filter is_due_soon rows)).

(** ** Sample tables *)

Definition day (n : Z) : Timestamp := n * ns_per_day.

Definition invoice (id : string) (issued due : Z) (amount : Q) (status : string)
    : InvoiceRecord :=
  mkInvoice id "Acme" (day issued) (day due) amount status.

(** Two pending invoices, due in 7 and in 12 days when [now] is day 0. *)
Definition two_invoices : DataFrame :=
  Loaded [invoice "INV-1" (-3) 7 (40 # 1) "Pending";
          invoice "INV-2" (-2) 12 (60 # 1) "Pending"].

(** A single pending invoice. *)
Definition one_invoice : DataFrame :=
  Loaded [invoice "INV-1" (-3) 7 (40 # 1) "Pending"].

(** Ids A, A, B, every amount 40. *)
Definition repeated_invoice : DataFrame :=
  Loaded [invoice "A" (-3) 7 (40 # 1) "Pending";
          invoice "A" (-2) 12 (40 # 1) "Pending";
          invoice "B" (-1) 20 (40 # 1) "Paid"].

(** Ids A, B, every amount 40. *)
Definition unremarkable : DataFrame :=
  Loaded [invoice "A" (-3) 7 (40 # 1) "Pending";
          invoice "B" (-1) 20 (40 # 1) "Paid"].


(** ** A stand-in forecaster

    The simplest library meeting [prophet_contract]: it predicts the mean
    of the history at every date.  It serves to run
    [forecast_future_payments] on concrete tables. *)
Module Naive.

Definition Model := list (Timestamp * Q).

Definition fit (history : list (Timestamp * Q)) : outcome Model :=
  if (List.length history <? 2)%nat
  then Raises (ValueError "Dataframe has less than 2 non-NaN rows.")
  else Returns history.

Definition history_dates (m : Model) : list Timestamp := map fst m.

Definition make_future_dataframe (m : Model) (periods : nat) : list Timestamp :=
  (history_dates m ++ following_days (last (history_dates m) 0) periods)%list.

Definition mean (m : Model) : Q :=
  (sum_amounts (map snd m) / inject_Z (Z.of_nat (List.length m)))%Q.

Definition predict (m : Model) (dates : list Timestamp) : outcome (list ForecastRow) :=
  Returns (map (fun d => mkForecast d (mean m) (mean m) (mean m)) dates).

Definition forecast : Py (list ForecastRow * Model) :=
  forecast_future_payments Model fit make_future_dataframe predict.

End Naive.

(** ** load_data and main (lines 9-11, 61-101): what the page shows *)

(** Lines 9-11: the frame [read_csv] makes of the rows of invoices.csv,
    for a file that is there and whose cells have the types of the six
    columns; a missing file or an ill-typed cell is outside the model. *)
Definition load_data (file : list InvoiceRecord) : DataFrame := Loaded file.

(** [df.head()]: the first five rows, columns as they are. *)
Definition head (df : DataFrame) : DataFrame :=
  match df with
  | Loaded rows => Loaded (firstn 5 rows)
  | Annotated rows => Annotated (firstn 5 rows)
  end.

(** [frame.tail(n)]: the last [n] rows. *)
Definition tail {A} (n : nat) (rows : list A) : list A :=
  skipn (List.length rows - n) rows.

(** A row of the five columns line 73 selects. *)
Record PriorityLine := mkLine {
  line_Invoice_ID : string;
  line_Supplier_Name : string;
  line_Due_Date : Timestamp;
  line_Amount : Q;
  line_Priority : string
}.

Definition priority_columns (row : PrioritizedRow) : PriorityLine :=
  mkLine (Invoice_ID (base row)) (Supplier_Name (base row)) (Due_Date (base row))
         (Amount (base row)) (Priority row).

(** A call of the page library, with what it is given.  A number put
    into an f-string is kept as the number, between the two pieces of
    text around it. *)
Inductive widget :=
| st_title (text : string)
| st_write (text : string)
| st_write_number (before : string) (value : Q) (after : string)
| st_dataframe (df : DataFrame)
| st_dataframe_priorities (rows : list PriorityLine)
| st_dataframe_forecast (rows : list ForecastRow)
| st_warning (text : string)
| st_success (text : string)
| st_pyplot (forecast : list ForecastRow).

(** A computation of [main]: it works on the frame and adds to the page. *)
Definition Page (A : Type) : Type :=
  DataFrame * list widget -> outcome A * (DataFrame * list widget).

Definition page_ret {A} (a : A) : Page A := fun s => (Returns a, s).

Definition page_bind {A B} (m : Page A) (k : A -> Page B) : Page B :=
  fun s => match m s with
           | (Returns a, s') => k a s'
           | (Raises e, s') => (Raises e, s')
           end.

(** A page call: the widget is added below what is shown so far. *)
Definition show (w : widget) : Page unit :=
  fun s => (Returns tt, (fst s, (snd s ++ [w])%list)).

(** A call of one of the functions above on the frame. *)
Definition call {A} (m : Py A) : Page A :=
  fun s => match m (fst s) with
           | (o, df') => (o, (df', snd s))
           end.

Declare Scope page_scope.
Delimit Scope page_scope with page.
Bind Scope page_scope with Page.

Notation "x <- m ;; k" := (page_bind m (fun x => k))
  (at level 61, m at next level, right associativity) : page_scope.
Notation "m ;;; k" := (page_bind m (fun _ => k))
  (at level 61, right associativity) : page_scope.

(** [for x in l: f(x)] *)
Fixpoint for_each {A} (f : A -> Page unit) (l : list A) : Page unit :=
  match l with
  | [] => page_ret tt
  | x :: l' => (f x ;;; for_each f l')%page
  end.

Section Dashboard.

Variable Model : Type.
Variable fit : list (Timestamp * Q) -> outcome Model.
Variable make_future_dataframe : Model -> nat -> list Timestamp.
Variable predict : Model -> list Timestamp -> outcome (list ForecastRow).

(** Lines 93-101; [clicked] is what [st.button] returns. *)
Definition forecasting_section (clicked : bool) : Page unit :=
  if clicked then
    (result <- call (forecast_future_payments Model fit make_future_dataframe predict) ;;
     show (st_write "Forecasted Daily Payments for the Next 30 Days:") ;;;
     show (st_dataframe_forecast (tail 30 (fst result))) ;;;
     show (st_pyplot (fst result)))%page
  else page_ret tt.

(** The page of one run: [file] is what invoices.csv holds, [now] the
    clock when line 15 reads it. *)
Definition main (file : list InvoiceRecord) (now : Timestamp) (clicked : bool)
    : Page unit :=
  (show (st_title "AI-Powered Invoice Analysis") ;;;
   show (st_write "This app analyzes pre-processed invoice data (from ABBYY) and provides actionable insights.") ;;;
   call (put_frame (load_data file)) ;;;
   show (st_write "### Invoice Data Preview") ;;;
   df <- call get_frame ;;
   show (st_dataframe (head df)) ;;;
   show (st_write "### Payment Prioritization") ;;;
   prioritized_df <- call (prioritize_payments now) ;;
   show (st_dataframe_priorities (map priority_columns prioritized_df)) ;;;
   show (st_write "### Anomaly Detection") ;;;
   df <- call get_frame ;;
   let anomalies := detect_anomalies df in
   (if negb (is_empty anomalies)
    then for_each (fun anomaly => show (st_warning anomaly)) anomalies
    else show (st_success "No anomalies detected.")) ;;;
   show (st_write "### Cash Flow Risk Forecast") ;;;
   cash_flow_risks <- call (lift (forecast_cash_flow_risks df)) ;;
   show (st_write_number "Total Pending Amount: **"
                         (Total_Pending_Amount cash_flow_risks) "**") ;;;
   show (st_write_number "Amount Due Soon (within 10 days): **"
                         (Amount_Due_Soon cash_flow_risks) "**") ;;;
   show (st_write (String.append "Risk Level: **"
                     (String.append (Risk_Level cash_flow_risks) "**"))) ;;;
   show (st_write "### Future Payment Forecasting") ;;;
   forecasting_section clicked)%page.

(** A run from an empty page. *)
Definition run_main (file : list InvoiceRecord) (now : Timestamp) (clicked : bool)
    : outcome unit * (DataFrame * list widget) :=
  main file now clicked (Loaded [], []).

End Dashboard.

(** ** Readings used by the properties *)

(** The place of a row in the returned view, by its Due_In_Days alone:
    under 5 days first, then 10 days and more, then 5 to 9 days. *)
Definition view_group (due : Z) : Z :=
  if due <? 5 then 0 else if due <? 10 then 2 else 1.

Definition view_le (a b : PrioritizedRow) : Prop :=
  view_group (Due_In_Days a) < view_group (Due_In_Days b) \/
  (view_group (Due_In_Days a) = view_group (Due_In_Days b) /\
   Due_In_Days a <= Due_In_Days b).

(** Rows that [sort_values] cannot tell apart. *)
Definition same_key (p : string) (due : Z) (row : PrioritizedRow) : bool :=
  String.eqb (Priority row) p && (Due_In_Days row =? due).

(** The amounts a list of dated cells holds for one date, summed. *)
Definition amount_on (d : Timestamp) (cells : list (Timestamp * Q)) : Q :=
  sum_amounts (map snd (filter (fun kv => fst kv =? d) cells)).

(** What lines 78-82 add to the page for a list of messages. *)
Definition anomaly_widgets (anomalies : list string) : list widget :=
  if negb (is_empty anomalies)
  then map st_warning anomalies
  else [st_success "No anomalies detected."].

(** The page of [main] down to the heading of the forecasting section. *)
Definition page_before_forecast (file : list InvoiceRecord) (now : Timestamp)
    : list widget :=
  ([st_title "AI-Powered Invoice Analysis";
    st_write "This app analyzes pre-processed invoice data (from ABBYY) and provides actionable insights.";
    st_write "### Invoice Data Preview";
    st_dataframe (Loaded (firstn 5 file));
    st_write "### Payment Prioritization";
    st_dataframe_priorities
      (map priority_columns (sort_values (annotate now file)));
    st_write "### Anomaly Detection"]
   ++ anomaly_widgets (detect_anomalies (Loaded file))
   ++ [st_write "### Cash Flow Risk Forecast";
       st_write_number "Total Pending Amount: **"
                       (total_pending_of (annotate now file)) "**";
       st_write_number "Amount Due Soon (within 10 days): **"
                       (due_soon_of (annotate now file)) "**";
       st_write (String.append "Risk Level: **"
                   (String.append
                      (if negb (Qle_bool (due_soon_of (annotate now file))
                                         ((5 # 10) * total_pending_of (annotate now file)))
                       then "High" else "Low")
                      "**"));
       st_write "### Future Payment Forecasting"])%list.

(** ** The arithmetic of the library *)

(** A whole number, written without a denominator. *)
Definition whole (a : Q) : Prop := Qden a = 1%positive.

(** Amounts on which the library's sums are the exact sums: whole
    numbers whose absolute values add up to less than 2^53.  Every
    partial sum, in any order, is then a whole number that an int64 and
    a float64 hold exactly, and so is half of it. *)
Definition sums_are_exact (amounts : list Q) : Prop :=
  Forall whole amounts /\
  (sum_amounts (map Qabs amounts) < inject_Z (2 ^ 53))%Q.

(** An int64 result: the integer modulo 2^64, read as signed. *)
Definition wrap_int64 (z : Z) : Z := (z + 2 ^ 63) mod 2 ^ 64 - 2 ^ 63.

(** [Series.sum()] on an int64 column. *)
Definition sum_int64 (cells : list Z) : Z :=
  fold_right (fun a s => wrap_int64 (a + s)) 0 cells.

(** The int64 cells of whole amounts. *)
Definition int64_cells (amounts : list Q) : list Z := map Qnum amounts.

(** The exact sum of integers. *)
Definition sum_Z (cells : list Z) : Z := fold_right Z.add 0 cells.

(** * Properties *)

(** ** The library operations on small inputs *)

Example dt_days_rounds_down :
  dt_days (day 5 - (day 0 + 36000000000000)) = 4 /\ dt_days (day 0 - day 1 - 1) = -2.
Proof. split; reflexivity. Qed.

Example duplicated_marks_every_occurrence :
  duplicated ["A"; "B"; "A"; "C"; "B"; "A"] = [true; true; true; false; true; true].
Proof. reflexivity. Qed.

Example quantile_interpolates :
  exists t, quantile (95 # 100) [5 # 1; 1 # 1; 4 # 1; 2 # 1; 3 # 1] = Some t /\
            (t == 48 # 10)%Q.
Proof. eexists; split; [vm_compute; reflexivity | reflexivity]. Qed.

Example quantile_of_nothing : quantile (95 # 100) [] = None.
Proof. reflexivity. Qed.

Example groupby_sum_merges_days :
  map fst (groupby_sum [(day 3, 1 # 1); (day 1, 2 # 1); (day 3, 4 # 1)]) = [day 1; day 3].
Proof. reflexivity. Qed.

Example sort_values_is_stable :
  map (fun row => Invoice_ID (base row))
      (sort_values [mkPrioritized (invoice "x" 0 0 0 "Paid") 3 "High";
                    mkPrioritized (invoice "y" 0 0 0 "Paid") 12 "Low";
                    mkPrioritized (invoice "z" 0 0 0 "Paid") 3 "High";
                    mkPrioritized (invoice "w" 0 0 0 "Paid") 7 "Medium"])
  = ["x"; "z"; "y"; "w"].
Proof. reflexivity. Qed.

(** ** prioritize_payments *)

Lemma assign_computed_annotate (now : Timestamp) (recs : list InvoiceRecord) :
  assign_computed recs (due_in_days_column now recs)
                  (priority_column (due_in_days_column now recs))
  = Annotated (annotate now recs).
Proof.
  unfold assign_computed, due_in_days_column, priority_column, annotate.
  f_equal.
  induction recs as [|r recs IH]; simpl; [reflexivity|].
  now rewrite IH.
Qed.

(** What a call does: the frame now carries the computed columns, the
    result is that frame sorted. *)
Lemma prioritize_payments_run (now : Timestamp) (df : DataFrame) :
  prioritize_payments now df
  = (Returns (sort_values (annotate now (records df))),
     Annotated (annotate now (records df))).
Proof.
  unfold prioritize_payments, bind, get_frame, put_frame, ret.
  now rewrite assign_computed_annotate.
Qed.

Lemma records_annotate (now : Timestamp) (recs : list InvoiceRecord) :
  map base (annotate now recs) = recs.
Proof.
  unfold annotate. rewrite map_map. simpl. apply map_id.
Qed.

Lemma insert_row_permutation (x : PrioritizedRow) (l : list PrioritizedRow) :
  Permutation (insert_row x l) (x :: l).
Proof.
  induction l as [|y l IH]; simpl; [apply Permutation_refl|].
  destruct (key_leb x y); [apply Permutation_refl|].
  eapply perm_trans; [apply perm_skip, IH | apply perm_swap].
Qed.

Lemma sort_values_permutation (l : list PrioritizedRow) :
  Permutation (sort_values l) l.
Proof.
  induction l as [|x l IH]; simpl; [constructor|].
  eapply perm_trans; [apply insert_row_permutation | now apply perm_skip].
Qed.

Lemma key_leb_total (a b : PrioritizedRow) :
  key_leb a b = false -> key_leb b a = true.
Proof.
  unfold key_leb. rewrite (String.compare_antisym (Priority a) (Priority b)).
  destruct (String.compare (Priority b) (Priority a)); simpl;
    try discriminate; try reflexivity.
  intros H. apply Z.leb_gt in H. apply Z.leb_le. lia.
Qed.

Lemma insert_row_sorted (x : PrioritizedRow) (l : list PrioritizedRow) :
  Sorted key_le l -> Sorted key_le (insert_row x l).
Proof.
  induction 1 as [|y l Hl IH Hhd]; simpl.
  - repeat constructor.
  - destruct (key_leb x y) eqn:E.
    + constructor; [constructor; assumption | constructor; exact E].
    + constructor; [exact IH|].
      destruct l as [|z l]; simpl.
      * constructor. now apply key_leb_total.
      * destruct (key_leb x z); constructor.
        -- now apply key_leb_total.
        -- now inversion Hhd.
Qed.

(** The returned view is ordered by the text of Priority, then by
    Due_In_Days. *)
Lemma sort_values_sorted (l : list PrioritizedRow) :
  Sorted key_le (sort_values l).
Proof.
  induction l as [|x l IH]; simpl; [constructor|].
  now apply insert_row_sorted.
Qed.

(** No row is added or dropped by [prioritize_payments]. *)
Lemma prioritize_payments_permutation (now : Timestamp) (df : DataFrame) :
  exists view,
    fst (prioritize_payments now df) = Returns view /\
    Permutation (map base view) (records df).
Proof.
  rewrite prioritize_payments_run. simpl. eexists; split; [reflexivity|].
  rewrite <- (records_annotate now (records df)) at 2.
  apply Permutation_map, sort_values_permutation.
Qed.

(** The text order of the three labels: High, then Low, then Medium. *)
Lemma label_text_order :
  String.compare "High" "Low" = Lt /\ String.compare "Low" "Medium" = Lt.
Proof. split; reflexivity. Qed.

(** C1, at a table of two rows due in 7 and in 12 days: the call returns
    both rows, but the Low row stands before the Medium row, so the view
    is not in the order High, Medium, Low. *)
Theorem prioritize_puts_low_before_medium :
  exists medium low,
    Priority medium = "Medium" /\ Priority low = "Low" /\
    fst (prioritize_payments (day 0) two_invoices) = Returns [low; medium] /\
    Permutation (map base [low; medium]) (records two_invoices) /\
    ~ Sorted spec_le [low; medium].
Proof.
  exists (annotate_row (day 0) (invoice "INV-1" (-3) 7 (40 # 1) "Pending")),
         (annotate_row (day 0) (invoice "INV-2" (-2) 12 (60 # 1) "Pending")).
  repeat split; try reflexivity.
  - simpl. apply perm_swap.
  - intros H. inversion H as [|? ? _ Hhd]; subst.
    inversion Hhd as [|? ? Hle]; subst.
    destruct Hle as [Hlt | [Heq _]]; vm_compute in *; discriminate.
Qed.

(** C5: the tier is High below 5 days, Medium from 5 up to but not
    including 10, Low from 10 on; 5 itself is Medium and 10 itself is Low.
    Every row of the returned view carries the tier of its own
    Due_In_Days. *)
Theorem priority_classification (now : Timestamp) (df : DataFrame) (due : Z) :
  (priority_of due = "High" <-> due < 5) /\
  (priority_of due = "Medium" <-> 5 <= due < 10) /\
  (priority_of due = "Low" <-> 10 <= due) /\
  priority_of 5 = "Medium" /\
  priority_of 10 = "Low" /\
  exists view,
    fst (prioritize_payments now df) = Returns view /\
    Forall (fun row => Priority row = priority_of (Due_In_Days row)) view.
Proof.
  unfold priority_of, np_where.
  repeat split; try reflexivity;
    try (destruct (Z.ltb_spec due 5), (Z.ltb_spec due 10);
         intros; try discriminate; try lia; reflexivity).
  rewrite prioritize_payments_run. simpl. eexists; split; [reflexivity|].
  eapply Permutation_Forall.
  - apply Permutation_sym, sort_values_permutation.
  - unfold annotate. apply Forall_forall. intros row Hin.
    apply in_map_iff in Hin. destruct Hin as [r [<- _]]. reflexivity.
Qed.

(** C2, as stated, fails: after the call the table passed in is no longer
    the six-column table it was. *)
Lemma prioritize_changes_its_argument :
  snd (prioritize_payments (day 0) two_invoices) <> two_invoices.
Proof. rewrite prioritize_payments_run. simpl. discriminate. Qed.

(** C2, amended: the call assigns Due_In_Days and Priority on the table it
    is given; the six loaded columns of every row and the row order stay
    as they were, and calling again with the same [now] on the table
    returns the same view and leaves the table as the first call left
    it. *)
Theorem prioritize_assigns_in_place (now : Timestamp) (df : DataFrame) :
  let df' := snd (prioritize_payments now df) in
  df' = Annotated (annotate now (records df)) /\
  records df' = records df /\
  prioritize_payments now df' = (fst (prioritize_payments now df), df').
Proof.
  cbv zeta. rewrite (prioritize_payments_run now df). simpl.
  rewrite prioritize_payments_run. simpl.
  rewrite !records_annotate.
  split; [reflexivity | split; reflexivity].
Qed.

(** ** forecast_cash_flow_risks *)

Lemma select_map {A B} (f : A -> bool) (g : A -> B) (l : list A) :
  select (map f l) (map g l) = map g (filter f l).
Proof.
  induction l as [|x l IH]; simpl; [reflexivity|].
  destruct (f x); simpl; now rewrite IH.
Qed.

Lemma mask_and_map {A} (f g : A -> bool) (l : list A) :
  mask_and (map f l) (map g l) = map (fun x => f x && g x) l.
Proof.
  induction l as [|x l IH]; simpl; [reflexivity|]. now rewrite IH.
Qed.

Lemma pending_mask_records (df : DataFrame) :
  pending_mask df = map is_pending (records df).
Proof. unfold pending_mask. now rewrite map_map. Qed.

(** On a frame that has the computed columns the call returns, and its
    three fields are these. *)
Lemma forecast_cash_flow_risks_run (rows : list PrioritizedRow) :
  forecast_cash_flow_risks (Annotated rows)
  = Returns (mkRisk (total_pending_of rows) (due_soon_of rows)
               (if negb (Qle_bool (due_soon_of rows) ((5 # 10) * total_pending_of rows))
                then "High" else "Low")).
Proof.
  unfold forecast_cash_flow_risks, getitem_Due_In_Days.
  rewrite pending_mask_records. simpl records.
  rewrite !map_map.
  rewrite (mask_and_map (fun row => Due_In_Days row <? 10)
                        (fun row => is_pending (base row)) rows).
  rewrite !select_map. reflexivity.
Qed.

Lemma total_pending_annotate (now : Timestamp) (recs : list InvoiceRecord) :
  total_pending_of (annotate now recs)
  = sum_amounts (map Amount (filter is_pending recs)).
Proof.
  unfold total_pending_of, annotate.
  induction recs as [|r recs IH]; simpl; [reflexivity|].
  destruct (is_pending r); simpl; now rewrite IH.
Qed.

Lemma due_soon_annotate (now : Timestamp) (recs : list InvoiceRecord) :
  due_soon_of (annotate now recs)
  = sum_amounts (map Amount
      (filter (fun r => (dt_days (Due_Date r - now) <? 10) && is_pending r) recs)).
Proof.
  unfold due_soon_of, annotate, is_due_soon.
  induction recs as [|r recs IH]; simpl; [reflexivity|].
  destruct ((dt_days (Due_Date r - now) <? 10) && is_pending r); simpl; now rewrite IH.
Qed.

Lemma sum_amounts_nonneg (l : list Q) :
  Forall (fun a => 0 <= a)%Q l -> (0 <= sum_amounts l)%Q.
Proof.
  induction 1 as [|a l Ha _ IH]; simpl; [apply Qle_refl|]. lra.
Qed.

(** The due-soon rows are some of the pending rows. *)
Lemma due_soon_le_total (rows : list PrioritizedRow) :
  Forall (fun row => 0 <= Amount (base row))%Q rows ->
  (0 <= due_soon_of rows <= total_pending_of rows)%Q.
Proof.
  unfold due_soon_of, total_pending_of, is_due_soon.
  induction 1 as [|row rows Hrow _ IH]; simpl; [lra|].
  destruct (is_pending (base row)), (Due_In_Days row <? 10); simpl; lra.
Qed.

Lemma risk_level_high_iff (due_soon total : Q) :
  (if negb (Qle_bool due_soon ((5 # 10) * total)) then "High" else "Low") = "High"
  <-> ((5 # 10) * total < due_soon)%Q.
Proof.
  destruct (Qle_bool due_soon ((5 # 10) * total)) eqn:E; simpl.
  - apply Qle_bool_iff in E. split; [discriminate | intros H; lra].
  - split; [intros _ | reflexivity].
    apply Qnot_le_lt. intros H. apply Qle_bool_iff in H. congruence.
Qed.

Lemma risk_level_low_iff (due_soon total : Q) :
  (if negb (Qle_bool due_soon ((5 # 10) * total)) then "High" else "Low") = "Low"
  <-> (due_soon <= (5 # 10) * total)%Q.
Proof.
  destruct (Qle_bool due_soon ((5 # 10) * total)) eqn:E; simpl.
  - apply Qle_bool_iff in E. split; [intros _; exact E | reflexivity].
  - split; [discriminate|]. intros H. apply Qle_bool_iff in H. congruence.
Qed.

(** C3, as stated, fails: on the table as loaded, before any call of
    [prioritize_payments], the summary is not computed; the lookup of the
    column Due_In_Days ends the call. *)
Lemma risk_summary_fails_on_loaded_table :
  forecast_cash_flow_risks two_invoices = Raises (KeyError "Due_In_Days") /\
  ~ exists r, forecast_cash_flow_risks two_invoices = Returns r.
Proof.
  split; [reflexivity|]. intros [r Hr]. discriminate Hr.
Qed.

(** C3, amended: the summary reads the column Due_In_Days stored on the
    table.  On a table as loaded it ends with KeyError; on a table that
    carries the column it returns the sums over the stored values; so
    after [prioritize_payments now] ran on the table, as in [main], it
    returns the pending total and the pending amount due within 10 days
    of that [now]. *)
Theorem risk_summary_reads_stored_column
    (now : Timestamp) (recs : list InvoiceRecord) (stored : list PrioritizedRow) :
  forecast_cash_flow_risks (Loaded recs) = Raises (KeyError "Due_In_Days") /\
  (exists r,
     forecast_cash_flow_risks (Annotated stored) = Returns r /\
     Total_Pending_Amount r = total_pending_of stored /\
     Amount_Due_Soon r = due_soon_of stored) /\
  (exists r,
     forecast_cash_flow_risks (snd (prioritize_payments now (Loaded recs))) = Returns r /\
     Total_Pending_Amount r = sum_amounts (map Amount (filter is_pending recs)) /\
     Amount_Due_Soon r =
       sum_amounts (map Amount
         (filter (fun r => (dt_days (Due_Date r - now) <? 10) && is_pending r) recs))) /\
  (exists view, fst (render now (Loaded recs)) = Returns view).
Proof.
  split; [reflexivity|]. split; [|split].
  - rewrite forecast_cash_flow_risks_run. eexists; repeat split.
  - rewrite prioritize_payments_run. simpl snd.
    rewrite forecast_cash_flow_risks_run. eexists; split; [reflexivity|]. simpl.
    split; [apply total_pending_annotate | apply due_soon_annotate].
  - unfold render, bind, get_frame, lift, ret.
    rewrite prioritize_payments_run, forecast_cash_flow_risks_run.
    eexists; reflexivity.
Qed.






(** *** The library's sums on exact amounts *)

Lemma wrap_int64_small (z : Z) : - 2 ^ 63 <= z < 2 ^ 63 -> wrap_int64 z = z.
Proof. intros H. unfold wrap_int64. rewrite Z.mod_small; lia. Qed.

Lemma sum_Z_abs_bound (cells : list Z) :
  Z.abs (sum_Z cells) <= sum_Z (map Z.abs cells).
Proof.
  induction cells as [|a cells IH]; simpl; lia.
Qed.

(** While the absolute values add up to less than 2^63 the int64 sum
    does not wrap. *)
Lemma sum_int64_exact (cells : list Z) :
  sum_Z (map Z.abs cells) < 2 ^ 63 -> sum_int64 cells = sum_Z cells.
Proof.
  induction cells as [|a cells IH]; [reflexivity|].
  cbn [map sum_Z fold_right sum_int64]. intros Hb.
  fold (sum_Z (map Z.abs cells)) in Hb.
  fold (sum_int64 cells). fold (sum_Z cells).
  pose proof (sum_Z_abs_bound cells) as Habs.
  rewrite IH by lia. apply wrap_int64_small. lia.
Qed.

Lemma whole_inject (a : Q) : whole a -> a = inject_Z (Qnum a).
Proof. destruct a as [n d]. unfold whole. simpl. now intros ->. Qed.

Lemma whole_Qabs (a : Q) : whole a -> Qabs a = inject_Z (Z.abs (Qnum a)).
Proof. destruct a as [n d]. unfold whole. simpl. now intros ->. Qed.

Lemma sum_amounts_whole (l : list Q) :
  Forall whole l -> (sum_amounts l == inject_Z (sum_Z (map Qnum l)))%Q.
Proof.
  induction 1 as [|a l Ha _ IH]; simpl; [reflexivity|].
  fold (sum_Z (map Qnum l)).
  rewrite inject_Z_plus, <- (whole_inject a Ha), IH. reflexivity.
Qed.

Lemma sum_abs_whole (l : list Q) :
  Forall whole l ->
  (sum_amounts (map Qabs l) == inject_Z (sum_Z (map Z.abs (map Qnum l))))%Q.
Proof.
  induction 1 as [|a l Ha _ IH]; simpl; [reflexivity|].
  fold (sum_Z (map Z.abs (map Qnum l))).
  rewrite inject_Z_plus, <- (whole_Qabs a Ha), IH. reflexivity.
Qed.

(** On exact amounts the exact sum is the int64 sum of the cells. *)
Lemma exact_sum_is_int64_sum (l : list Q) :
  sums_are_exact l -> (sum_amounts l == inject_Z (sum_int64 (int64_cells l)))%Q.
Proof.
  intros [Hwhole Hbound]. unfold int64_cells.
  rewrite sum_int64_exact; [now apply sum_amounts_whole|].
  rewrite (sum_abs_whole l Hwhole), <- Zlt_Qlt in Hbound.
  assert (2 ^ 53 < 2 ^ 63) by reflexivity. lia.
Qed.

Lemma sums_are_exact_filter {A} (g : A -> Q) (f : A -> bool) (rows : list A) :
  sums_are_exact (map g rows) -> sums_are_exact (map g (filter f rows)).
Proof.
  intros [Hwhole Hbound]. split.
  - rewrite Forall_forall in *. intros a Ha.
    apply in_map_iff in Ha. destruct Ha as [x [<- Hx]].
    apply filter_In in Hx. destruct Hx as [Hx _].
    apply Hwhole, in_map, Hx.
  - eapply Qle_lt_trans; [|exact Hbound]. clear.
    induction rows as [|x rows IH]; simpl; [lra|].
    pose proof (Qabs_nonneg (g x)).
    destruct (f x); simpl; lra.
Qed.




(** ** detect_anomalies *)

Lemma select_filter {A} (f : A -> bool) (l : list A) :
  select (map f l) l = filter f l.
Proof.
  induction l as [|x l IH]; simpl; [reflexivity|].
  destruct (f x); now rewrite IH.
Qed.

Lemma existsb_eqb_count (i : string) (l : list string) :
  existsb (String.eqb i) l = (1 <=? count_occ string_dec l i)%nat.
Proof.
  induction l as [|j l IH]; simpl; [reflexivity|].
  destruct (string_dec j i) as [->|Hne].
  - now rewrite String.eqb_refl.
  - rewrite IH. apply not_eq_sym in Hne.
    apply String.eqb_neq in Hne. now rewrite Hne.
Qed.

(** The mask of [duplicated(keep=False)] marks the cells whose value
    stands at least twice in the column. *)
Lemma duplicated_from_count (seen ids : list string) :
  duplicated_from seen ids
  = map (fun i => (2 <=? count_occ string_dec (seen ++ ids) i)%nat) ids.
Proof.
  revert seen. induction ids as [|i rest IH]; intros seen; simpl; [reflexivity|].
  f_equal.
  - rewrite !existsb_eqb_count, count_occ_app. simpl.
    destruct (string_dec i i) as [_|Hne]; [|congruence].
    destruct (count_occ string_dec seen i), (count_occ string_dec rest i);
      simpl; try reflexivity.
    + rewrite Nat.add_succ_r. reflexivity.
    + rewrite Nat.add_succ_r. reflexivity.
  - rewrite IH. apply map_ext. intros j.
    assert (Hc : count_occ string_dec ((i :: seen) ++ rest) j
                 = count_occ string_dec (seen ++ i :: rest) j).
    { rewrite !count_occ_app. simpl. destruct (string_dec i j); lia. }
    now rewrite Hc.
Qed.

Lemma duplicated_count (ids : list string) :
  duplicated ids = map (fun i => (2 <=? count_occ string_dec ids i)%nat) ids.
Proof. unfold duplicated. now rewrite duplicated_from_count. Qed.

Lemma duplicates_filter (df : DataFrame) :
  duplicates df
  = filter (fun r => (2 <=? count_occ string_dec (map Invoice_ID (records df))
                                    (Invoice_ID r))%nat)
           (records df).
Proof.
  unfold duplicates. rewrite duplicated_count, map_map. apply select_filter.
Qed.

Lemma filter_map_commute {A B} (g : A -> B) (f : B -> bool) (l : list A) :
  map g (filter (fun x => f (g x)) l) = filter f (map g l).
Proof.
  induction l as [|x l IH]; simpl; [reflexivity|].
  destruct (f (g x)); simpl; now rewrite IH.
Qed.

(** The ids the duplicate message lists. *)
Lemma duplicates_ids (df : DataFrame) :
  map Invoice_ID (duplicates df) = repeated_ids (map Invoice_ID (records df)).
Proof.
  rewrite duplicates_filter. unfold repeated_ids.
  apply (filter_map_commute Invoice_ID
           (fun i => (2 <=? count_occ string_dec (map Invoice_ID (records df)) i)%nat)).
Qed.

Lemma count_occ_filter_keep (f : string -> bool) (l : list string) (i : string) :
  f i = true -> count_occ string_dec (filter f l) i = count_occ string_dec l i.
Proof.
  intros Hf. induction l as [|j l IH]; simpl; [reflexivity|].
  destruct (string_dec j i) as [->|Hne].
  - rewrite Hf. simpl. destruct (string_dec i i); [now rewrite IH | congruence].
  - destruct (f j); simpl; [|exact IH].
    destruct (string_dec j i); [congruence | exact IH].
Qed.

(** Every occurrence of a repeated id is listed, and nothing else. *)
Lemma repeated_ids_occurrences (ids : list string) (i : string) :
  ((2 <= count_occ string_dec ids i)%nat ->
   count_occ string_dec (repeated_ids ids) i = count_occ string_dec ids i) /\
  (In i (repeated_ids ids) -> (2 <= count_occ string_dec ids i)%nat).
Proof.
  unfold repeated_ids. split.
  - intros H. apply count_occ_filter_keep. now apply Nat.leb_le.
  - intros H. apply filter_In in H. destruct H as [_ H]. now apply Nat.leb_le.
Qed.

Lemma repeated_ids_nonempty (ids : list string) :
  repeated_ids ids <> [] <-> exists i, (2 <= count_occ string_dec ids i)%nat.
Proof.
  split.
  - intros H. destruct (repeated_ids ids) as [|i l] eqn:E; [congruence|].
    exists i. apply repeated_ids_occurrences. rewrite E. now left.
  - intros [i Hi] E.
    pose proof (proj1 (repeated_ids_occurrences ids i) Hi) as Hc.
    rewrite E in Hc. simpl in Hc. lia.
Qed.

Lemma is_empty_false {A} (l : list A) : is_empty l = false <-> l <> [].
Proof. destruct l; simpl; split; congruence. Qed.

Lemma map_eq_nil_iff {A B} (f : A -> B) (l : list A) : map f l = [] <-> l = [].
Proof. destruct l; simpl; split; congruence. Qed.

Lemma high_amounts_filter (df : DataFrame) :
  high_amounts df
  = filter (fun r => gt_threshold (quantile (95 # 100) (map Amount (records df)))
                                  (Amount r))
           (records df).
Proof.
  unfold high_amounts. rewrite map_map. apply select_filter.
Qed.



(** The list built by lines 22-31: the duplicate message if line 24
    selected a row, then the high-amount message if line 28 did. *)
Lemma detect_anomalies_run (df : DataFrame) :
  detect_anomalies df
  = ((if is_empty (duplicates df) then []
      else [String.append duplicate_prefix
              (String.concat ", " (repeated_ids (map Invoice_ID (records df))))])
     ++
     (if is_empty (high_amounts df) then []
      else [String.append high_amount_prefix (join_ids (high_amounts df))]))%list.
Proof.
  unfold detect_anomalies, join_ids. rewrite duplicates_ids.
  destruct (is_empty (duplicates df)), (is_empty (high_amounts df)); reflexivity.
Qed.

Lemma duplicates_nonempty (df : DataFrame) :
  is_empty (duplicates df) = false <->
  exists i, (2 <= count_occ string_dec (map Invoice_ID (records df)) i)%nat.
Proof.
  rewrite is_empty_false, <- repeated_ids_nonempty, <- duplicates_ids.
  now rewrite map_eq_nil_iff.
Qed.

Lemma gt_threshold_false (t x : Q) :
  (x <= t)%Q -> gt_threshold (Some t) x = false.
Proof.
  intros H. simpl. apply negb_false_iff. now apply Qle_bool_iff.
Qed.

(** The 95th percentile of three equal amounts is that amount. *)
Lemma quantile_three_equal (x1 x2 x3 : Q) :
  (x1 == x2)%Q -> (x2 == x3)%Q ->
  exists t, quantile (95 # 100) [x1; x2; x3] = Some t /\ (t == x1)%Q.
Proof.
  intros H12 H23.
  assert (L23 : Qle_bool x2 x3 = true) by (apply Qle_bool_iff; lra).
  assert (L12 : Qle_bool x1 x2 = true) by (apply Qle_bool_iff; lra).
  unfold quantile. cbn [sort_amounts insert_amount]. rewrite L23.
  cbn [insert_amount]. rewrite L12.
  cbv zeta.
  change (Z.of_nat (List.length [x1; x2; x3])) with 3%Z.
  change (Qfloor ((95 # 100) * inject_Z (3 - 1))) with 1%Z.
  change (Z.to_nat 1) with 1%nat.
  change (Z.to_nat (Z.min (1 + 1) (3 - 1))) with 2%nat.
  cbn [nth].
  eexists; split; [reflexivity|].
  setoid_replace (x3 - x2)%Q with 0%Q by lra.
  rewrite Qmult_0_l. lra.
Qed.

(** C6: when some id stands in two rows or more, the list starts with the
    one duplicate message, which names every row of every repeated id,
    once per row, and only those; whatever follows is the high-amount
    message.  For rows with ids A, A, B and one amount the list is the
    duplicate message naming A twice, and nothing else. *)
Theorem duplicate_finding_lists_every_occurrence :
  (forall df : DataFrame,
     let ids := map Invoice_ID (records df) in
     (exists i, (2 <= count_occ string_dec ids i)%nat) ->
     exists rest,
       detect_anomalies df
       = String.append duplicate_prefix (String.concat ", " (repeated_ids ids)) :: rest /\
       (rest = [] \/
        rest = [String.append high_amount_prefix (join_ids (high_amounts df))]) /\
       (forall i, (2 <= count_occ string_dec ids i)%nat ->
                  count_occ string_dec (repeated_ids ids) i = count_occ string_dec ids i) /\
       (forall i, In i (repeated_ids ids) -> (2 <= count_occ string_dec ids i)%nat)) /\
  (forall a1 a2 b : InvoiceRecord,
     Invoice_ID a2 = Invoice_ID a1 ->
     Invoice_ID b <> Invoice_ID a1 ->
     (Amount a1 == Amount a2)%Q ->
     (Amount a2 == Amount b)%Q ->
     detect_anomalies (Loaded [a1; a2; b])
     = [String.append duplicate_prefix
          (String.append (Invoice_ID a1) (String.append ", " (Invoice_ID a2)))]).
Proof.
  split.
  - intros df ids Hex. rewrite detect_anomalies_run.
    apply duplicates_nonempty in Hex. rewrite Hex.
    exists (if is_empty (high_amounts df) then []
            else [String.append high_amount_prefix (join_ids (high_amounts df))]).
    split; [reflexivity|].
    split; [destruct (is_empty (high_amounts df)); auto|].
    split; intros i; apply repeated_ids_occurrences.
  - intros a1 a2 b Hid Hb H12 H23.
    rewrite detect_anomalies_run.
    assert (Hdup : is_empty (duplicates (Loaded [a1; a2; b])) = false).
    { apply duplicates_nonempty. exists (Invoice_ID a1).
      cbn [records map]. rewrite Hid. cbn [count_occ].
      destruct (string_dec (Invoice_ID a1) (Invoice_ID a1)); [|congruence].
      destruct (string_dec (Invoice_ID b) (Invoice_ID a1)); lia. }
    rewrite Hdup.
    assert (Hhigh : high_amounts (Loaded [a1; a2; b]) = []).
    { rewrite high_amounts_filter. cbn [records map].
      destruct (quantile_three_equal (Amount a1) (Amount a2) (Amount b) H12 H23)
        as (t & -> & Ht).
      cbn [filter].
      rewrite !gt_threshold_false by lra. reflexivity. }
    rewrite Hhigh. cbn [is_empty app records map].
    do 2 f_equal. rewrite Hid. unfold repeated_ids. cbn [filter count_occ].
    destruct (string_dec (Invoice_ID a1) (Invoice_ID a1)); [|congruence].
    destruct (string_dec (Invoice_ID b) (Invoice_ID a1)); [congruence|].
    destruct (string_dec (Invoice_ID a1) (Invoice_ID b)); [congruence|].
    destruct (string_dec (Invoice_ID b) (Invoice_ID b)); [|congruence].
    reflexivity.
Qed.

(** On the table with ids A, A, B the only message lists A twice. *)
Lemma duplicate_finding_witness :
  (exists i, (2 <= count_occ string_dec (map Invoice_ID (records repeated_invoice)) i)%nat) /\
  (exists rest,
     detect_anomalies repeated_invoice = "Duplicate invoices detected: A, A" :: rest) /\
  detect_anomalies repeated_invoice = ["Duplicate invoices detected: A, A"].
Proof.
  assert (H : exists i,
            (2 <= count_occ string_dec (map Invoice_ID (records repeated_invoice)) i)%nat).
  { exists "A". vm_compute. lia. }
  split; [exact H|]. split.
  - destruct (proj1 duplicate_finding_lists_every_occurrence repeated_invoice H)
      as (rest & Hrun & _).
    exists rest. exact Hrun.
  - apply (proj2 duplicate_finding_lists_every_occurrence
             (invoice "A" (-3) 7 (40 # 1) "Pending")
             (invoice "A" (-2) 12 (40 # 1) "Pending")
             (invoice "B" (-1) 20 (40 # 1) "Paid")).
    + reflexivity.
    + discriminate.
    + reflexivity.
    + reflexivity.
Defined.



(** ** forecast_future_payments *)

Lemma with_Invoice_Date_same (r : InvoiceRecord) :
  with_Invoice_Date r (Invoice_Date r) = r.
Proof. now destruct r. Qed.

(** Line 46 stores back the timestamps the column already holds. *)
Lemma assign_Invoice_Date_same (df : DataFrame) :
  assign_Invoice_Date df (map to_datetime (map Invoice_Date (records df))) = df.
Proof.
  destruct df as [rows|rows]; simpl; f_equal.
  - induction rows as [|r rows IH]; simpl; [reflexivity|].
    unfold to_datetime at 1. now rewrite with_Invoice_Date_same, IH.
  - induction rows as [|r rows IH]; simpl; [reflexivity|].
    unfold to_datetime at 1. rewrite with_Invoice_Date_same, IH. now destruct r.
Qed.

Lemma add_to_group_keys (k : Timestamp) (v : Q) (groups : list (Timestamp * Q))
    (x : Timestamp) :
  In x (map fst (add_to_group k v groups)) <-> x = k \/ In x (map fst groups).
Proof.
  induction groups as [|[k' s] rest IH]; simpl.
  - intuition.
  - destruct (Z.ltb_spec k k'); simpl; [intuition|].
    destruct (Z.eqb_spec k k'); simpl; [subst; intuition|].
    rewrite IH. intuition.
Qed.

Lemma add_to_group_sorted (k : Timestamp) (v : Q) (groups : list (Timestamp * Q)) :
  StronglySorted Z.lt (map fst groups) ->
  StronglySorted Z.lt (map fst (add_to_group k v groups)).
Proof.
  induction groups as [|[k' s] rest IH]; simpl; intros Hs.
  - repeat constructor.
  - inversion Hs as [|? ? Hrest Hall]; subst.
    destruct (Z.ltb_spec k k'); simpl.
    + constructor; [exact Hs|].
      constructor; [exact H|].
      eapply Forall_impl; [|exact Hall]. simpl. intros. lia.
    + destruct (Z.eqb_spec k k'); simpl; [exact Hs|].
      constructor; [now apply IH|].
      apply Forall_forall. intros x Hx. apply add_to_group_keys in Hx.
      destruct Hx as [->|Hx]; [lia|].
      rewrite Forall_forall in Hall. now apply Hall.
Qed.

Lemma fold_add_to_group (cells groups : list (Timestamp * Q)) :
  StronglySorted Z.lt (map fst groups) ->
  let result := fold_left (fun g kv => add_to_group (fst kv) (snd kv) g) cells groups in
  StronglySorted Z.lt (map fst result) /\
  forall x, In x (map fst result) <-> In x (map fst groups) \/ In x (map fst cells).
Proof.
  revert groups. induction cells as [|[k v] cells IH]; simpl; intros groups Hs.
  - split; [exact Hs | intuition].
  - destruct (IH (add_to_group k v groups) (add_to_group_sorted k v groups Hs))
      as [Hsorted Hin].
    split; [exact Hsorted|].
    intros x. rewrite Hin, add_to_group_keys. intuition.
Qed.

(** The grouped series has its dates strictly ascending, and they are the
    dates of the cells grouped. *)
Lemma groupby_sum_keys (cells : list (Timestamp * Q)) :
  StronglySorted Z.lt (map fst (groupby_sum cells)) /\
  forall x, In x (map fst (groupby_sum cells)) <-> In x (map fst cells).
Proof.
  destruct (fold_add_to_group cells [] (SSorted_nil _)) as [Hs Hin].
  split; [exact Hs|]. intros x. unfold groupby_sum. rewrite Hin. simpl. intuition.
Qed.

Lemma strictly_ascending_NoDup (l : list Z) : StronglySorted Z.lt l -> NoDup l.
Proof.
  induction 1 as [|x l _ IH Hall]; constructor; [|exact IH].
  intros Hin. rewrite Forall_forall in Hall. specialize (Hall x Hin). lia.
Qed.

Lemma strictly_ascending_last (l : list Z) (d x : Z) :
  StronglySorted Z.lt l -> In x l -> x <= last l d.
Proof.
  intros Hsorted. revert x.
  induction Hsorted as [|y l Hs IH Hall]; intros x Hin; [destruct Hin|].
  destruct l as [|z l]; simpl.
  - destruct Hin as [->|[]]. lia.
  - destruct Hin as [->|Hin].
    + assert (z <= last (z :: l) d) by (apply IH; now left).
      inversion Hall; subst. simpl in *. lia.
    + now apply IH.
Qed.

Lemma strictly_ascending_app (l1 l2 : list Z) :
  StronglySorted Z.lt l1 -> StronglySorted Z.lt l2 ->
  (forall x y, In x l1 -> In y l2 -> x < y) ->
  StronglySorted Z.lt (l1 ++ l2).
Proof.
  induction 1 as [|x l1 Hs IH Hall]; intros H2 Hlt; simpl; [exact H2|].
  constructor.
  - apply IH; [exact H2|]. intros a b Ha Hb. apply Hlt; [now right | exact Hb].
  - apply Forall_app. split; [exact Hall|].
    apply Forall_forall. intros y Hy. apply Hlt; [now left | exact Hy].
Qed.

Lemma days_from_ascending (last : Timestamp) (start periods : nat) :
  StronglySorted Z.lt
    (map (fun k => last + Z.of_nat k * ns_per_day) (seq start periods)).
Proof.
  revert start. induction periods as [|n IH]; intros start; simpl; constructor.
  - apply IH.
  - apply Forall_forall. intros y Hy. apply in_map_iff in Hy.
    destruct Hy as [k [<- Hk]]. apply in_seq in Hk.
    unfold ns_per_day. nia.
Qed.

Lemma following_days_after (last : Timestamp) (periods : nat) (y : Timestamp) :
  In y (following_days last periods) -> last < y.
Proof.
  unfold following_days. intros Hy. apply in_map_iff in Hy.
  destruct Hy as [k [<- Hk]]. apply in_seq in Hk. unfold ns_per_day. nia.
Qed.

Lemma following_days_length (last : Timestamp) (periods : nat) :
  List.length (following_days last periods) = periods.
Proof. unfold following_days. now rewrite length_map, length_seq. Qed.

Lemma daily_pending_dates (df : DataFrame) :
  StronglySorted Z.lt (map fst (daily_pending df)) /\
  forall x, In x (map fst (daily_pending df)) <-> In x (pending_dates df).
Proof.
  unfold daily_pending, pending_dates.
  rewrite pending_mask_records, select_map.
  destruct (groupby_sum_keys
              (map (fun r => (Invoice_Date r, Amount r)) (filter is_pending (records df))))
    as [Hs Hin].
  split; [exact Hs|]. intros x. rewrite Hin, map_map. simpl. reflexivity.
Qed.

(** The series has one row per distinct date of a Pending row. *)
Lemma daily_pending_length (df : DataFrame) :
  List.length (daily_pending df) = distinct_pending_dates df.
Proof.
  destruct (daily_pending_dates df) as [Hs Hin].
  unfold distinct_pending_dates.
  rewrite <- (length_map fst (daily_pending df)).
  apply Permutation_length, NoDup_Permutation.
  - now apply strictly_ascending_NoDup.
  - apply NoDup_nodup.
  - intros x. rewrite Hin. symmetry. apply nodup_In.
Qed.

Lemma naive_contract :
  prophet_contract Naive.Model Naive.fit Naive.history_dates
                   Naive.make_future_dataframe Naive.predict.
Proof.
  constructor.
  - intros history H. unfold Naive.fit.
    now rewrite (proj2 (Nat.ltb_lt _ _) H).
  - intros history m H _. unfold Naive.fit in H.
    destruct (List.length history <? 2)%nat; [discriminate|].
    now injection H as <-.
  - reflexivity.
  - intros m dates rows H. unfold Naive.predict in H. injection H as <-.
    rewrite map_map. simpl. apply map_id.
Qed.

Section ForecasterProperties.

Variable Model : Type.
Variable fit : list (Timestamp * Q) -> outcome Model.
Variable history_dates : Model -> list Timestamp.
Variable make_future_dataframe : Model -> nat -> list Timestamp.
Variable predict : Model -> list Timestamp -> outcome (list ForecastRow).

Local Abbreviation forecast :=
  (forecast_future_payments Model fit make_future_dataframe predict).

(** The function has no check and no handler of its own: it returns
    what [predict] returns, and ends with whatever exception [fit] or
    [predict] ends with.  The frame keeps its rows: the timestamps
    line 46 stores are those the cells stand for. *)
Lemma forecast_future_payments_run (df : DataFrame) :
  forecast df
  = match fit (daily_pending df) with
    | Raises e => (Raises e, df)
    | Returns model =>
        match predict model (make_future_dataframe model 30) with
        | Raises e => (Raises e, df)
        | Returns rows => (Returns (rows, model), df)
        end
    end.
Proof.
  unfold forecast_future_payments, bind, get_frame, put_frame, lift, ret.
  rewrite assign_Invoice_Date_same.
  destruct (fit (daily_pending df)) as [model|e]; [|reflexivity].
  destruct (predict model (make_future_dataframe model 30)); reflexivity.
Qed.

Lemma forecast_leaves_frame (df : DataFrame) : snd (forecast df) = df.
Proof.
  rewrite forecast_future_payments_run.
  destruct (fit (daily_pending df)) as [model|e]; [|reflexivity].
  destruct (predict model (make_future_dataframe model 30)); reflexivity.
Qed.

Hypothesis contract :
  prophet_contract Model fit history_dates make_future_dataframe predict.

(** C4, amended: with fewer than two distinct dates among the Pending
    rows the call ends with the ValueError that the library's [fit]
    raises for a history of fewer than two rows; the program raises no
    error of its own. *)
Theorem forecast_short_history_raises_ValueError (df : DataFrame) :
  (distinct_pending_dates df < 2)%nat ->
  fst (forecast df) = Raises (ValueError "Dataframe has less than 2 non-NaN rows.").
Proof.
  intros Hshort. rewrite forecast_future_payments_run.
  rewrite (fit_needs_two_rows _ _ _ _ _ contract); [reflexivity|].
  now rewrite daily_pending_length.
Qed.

(** C9: when the call returns, the forecast has one row per distinct
    date of a Pending row and 30 more, and its dates are strictly
    ascending, so no date stands twice. *)
Theorem forecast_has_history_plus_30_rows
    (df df' : DataFrame) (rows : list ForecastRow) (model : Model) :
  forecast df = (Returns (rows, model), df') ->
  List.length rows = (distinct_pending_dates df + 30)%nat /\
  StronglySorted Z.lt (map ds rows) /\
  NoDup (map ds rows).
Proof.
  rewrite forecast_future_payments_run.
  destruct (fit (daily_pending df)) as [m|e] eqn:Hfit; [|discriminate].
  destruct (predict m (make_future_dataframe m 30)) as [out|e] eqn:Hpred;
    [|discriminate].
  intros [= -> -> _].
  destruct (daily_pending_dates df) as [Hsorted _].
  pose proof (fit_keeps_dates _ _ _ _ _ contract _ _ Hfit Hsorted) as Hhist.
  pose proof (predict_row_per_date _ _ _ _ _ contract _ _ _ Hpred) as Hrows.
  rewrite (future_dates _ _ _ _ _ contract) in Hrows.
  assert (Hasc : StronglySorted Z.lt (map ds rows)).
  { rewrite Hrows, Hhist. apply strictly_ascending_app.
    - exact Hsorted.
    - apply days_from_ascending.
    - intros x y Hx Hy. apply following_days_after in Hy.
      eapply Z.le_lt_trans; [|exact Hy].
      exact (strictly_ascending_last _ 0 x Hsorted Hx). }
  split; [|split; [exact Hasc | now apply strictly_ascending_NoDup]].
  rewrite <- (length_map ds rows), Hrows, length_app, following_days_length.
  now rewrite Hhist, length_map, daily_pending_length.
Qed.

End ForecasterProperties.

(** C4, as stated, fails: on a table with one Pending date the call ends
    with the library's ValueError, which is not InsufficientDataError. *)
Lemma forecast_error_is_not_InsufficientDataError :
  (distinct_pending_dates one_invoice < 2)%nat /\
  fst (Naive.forecast one_invoice)
  = Raises (ValueError "Dataframe has less than 2 non-NaN rows.") /\
  fst (Naive.forecast one_invoice) <> Raises InsufficientDataError.
Proof.
  split; [vm_compute; lia|].
  split; [reflexivity | discriminate].
Qed.

Lemma forecast_short_history_witness :
  (distinct_pending_dates one_invoice < 2)%nat /\
  fst (Naive.forecast one_invoice)
  = Raises (ValueError "Dataframe has less than 2 non-NaN rows.").
Proof.
  assert (H : (distinct_pending_dates one_invoice < 2)%nat) by (vm_compute; lia).
  split; [exact H|].
  apply (forecast_short_history_raises_ValueError
           Naive.Model Naive.fit Naive.history_dates Naive.make_future_dataframe
           Naive.predict naive_contract one_invoice H).
Defined.

(** Two Pending dates: the call returns 32 rows. *)
Lemma forecast_row_count_witness :
  exists rows model,
    Naive.forecast two_invoices = (Returns (rows, model), two_invoices) /\
    List.length rows = 32%nat /\
    StronglySorted Z.lt (map ds rows) /\
    NoDup (map ds rows).
Proof.
  destruct (Naive.forecast two_invoices) as [[[rows model]|e] df'] eqn:Hrun;
    [|vm_compute in Hrun; discriminate Hrun].
  pose proof (forecast_leaves_frame Naive.Model Naive.fit
                Naive.make_future_dataframe Naive.predict two_invoices) as Hdf.
  fold Naive.forecast in Hdf. rewrite Hrun in Hdf. simpl in Hdf. subst df'.
  exists rows, model. split; [reflexivity|].
  apply (forecast_has_history_plus_30_rows
           Naive.Model Naive.fit Naive.history_dates Naive.make_future_dataframe
           Naive.predict naive_contract two_invoices two_invoices rows model Hrun).
Defined.

(** * Further properties of the code *)

(** ** prioritize_payments: days, order, ties *)

Lemma ns_per_day_pos : 0 < ns_per_day.
Proof. reflexivity. Qed.

Lemma dt_days_bounds (delta : Z) :
  dt_days delta * ns_per_day <= delta < (dt_days delta + 1) * ns_per_day.
Proof.
  unfold dt_days.
  pose proof (Z.div_mod delta ns_per_day) as Hdm.
  pose proof (Z.mod_pos_bound delta ns_per_day ns_per_day_pos) as Hm.
  pose proof ns_per_day_pos. nia.
Qed.

Lemma dt_days_lt (delta k : Z) : dt_days delta < k <-> delta < k * ns_per_day.
Proof.
  pose proof (dt_days_bounds delta) as Hb. pose proof ns_per_day_pos.
  split; intros H0; nia.
Qed.

Lemma annotate_priority (now : Timestamp) (recs : list InvoiceRecord) :
  Forall (fun row => Priority row = priority_of (Due_In_Days row) /\
                     Due_In_Days row = dt_days (Due_Date (base row) - now))
         (annotate now recs).
Proof.
  apply Forall_forall. intros row Hin. unfold annotate in Hin.
  apply in_map_iff in Hin. destruct Hin as [r [<- _]]. split; reflexivity.
Qed.

Lemma priority_of_cases (due : Z) :
  (priority_of due = "High" <-> due < 5) /\
  (priority_of due = "Medium" <-> 5 <= due < 10) /\
  (priority_of due = "Low" <-> 10 <= due).
Proof.
  unfold priority_of, np_where.
  destruct (Z.ltb_spec due 5), (Z.ltb_spec due 10);
    repeat split; intros; try discriminate; try lia; reflexivity.
Qed.

(** X1: the stored Due_In_Days is the number of whole days from [now] to
    the due date, rounded down, so the tiers are cut at [now] plus exactly
    5 and 10 days: a due date less than 5 days (to the nanosecond) after
    [now], overdue ones included, is High; from 10 days on it is Low. *)
Theorem due_in_days_counts_whole_days (now : Timestamp) (df : DataFrame) :
  exists rows,
    snd (prioritize_payments now df) = Annotated rows /\
    Forall (fun row =>
      (now + Due_In_Days row * ns_per_day <= Due_Date (base row)
         < now + (Due_In_Days row + 1) * ns_per_day) /\
      (Priority row = "High" <-> Due_Date (base row) < now + 5 * ns_per_day) /\
      (Priority row = "Medium" <->
         now + 5 * ns_per_day <= Due_Date (base row) < now + 10 * ns_per_day) /\
      (Priority row = "Low" <-> now + 10 * ns_per_day <= Due_Date (base row)))
      rows.
Proof.
  rewrite prioritize_payments_run. simpl. eexists; split; [reflexivity|].
  eapply Forall_impl; [|apply annotate_priority].
  intros row [Hp Hd]. simpl.
  pose proof (dt_days_bounds (Due_Date (base row) - now)) as Hb.
  pose proof (dt_days_lt (Due_Date (base row) - now) 5) as H5.
  pose proof (dt_days_lt (Due_Date (base row) - now) 10) as H10.
  destruct (priority_of_cases (Due_In_Days row)) as (Hh & Hm & Hl).
  rewrite Hp, Hh, Hm, Hl, Hd.
  change ns_per_day with 86400000000000 in *.
  repeat split; intros; lia.
Qed.

(** X2: the view holds exactly the rows of the table as the call leaves
    it, computed columns included: none is added, dropped or altered. *)
Theorem view_holds_the_rows_of_the_table (now : Timestamp) (df : DataFrame) :
  exists view rows,
    prioritize_payments now df = (Returns view, Annotated rows) /\
    Permutation view rows /\
    map base rows = records df /\
    List.length view = List.length (records df).
Proof.
  rewrite prioritize_payments_run.
  exists (sort_values (annotate now (records df))), (annotate now (records df)).
  split; [reflexivity|].
  split; [apply sort_values_permutation|].
  split; [apply records_annotate|].
  rewrite (Permutation_length (sort_values_permutation _)).
  unfold annotate. apply length_map.
Qed.

Lemma Sorted_weaken {A} (R R' : A -> A -> Prop) (P : A -> Prop) (l : list A) :
  (forall a b, P a -> P b -> R a b -> R' a b) ->
  Forall P l -> Sorted R l -> Sorted R' l.
Proof.
  intros Himp Hall Hs. induction Hs as [|x l Hs IH Hhd]; [constructor|].
  inversion Hall as [|? ? Px Pl]; subst.
  constructor; [now apply IH|].
  destruct Hhd as [|y l Hxy]; constructor.
  inversion Pl; subst. now apply Himp.
Qed.

Lemma key_le_view_le (a b : PrioritizedRow) :
  Priority a = priority_of (Due_In_Days a) ->
  Priority b = priority_of (Due_In_Days b) ->
  key_le a b -> view_le a b.
Proof.
  unfold key_le, key_leb, view_le, view_group, priority_of, np_where.
  intros -> ->.
  destruct (Z.ltb_spec (Due_In_Days a) 5), (Z.ltb_spec (Due_In_Days a) 10),
           (Z.ltb_spec (Due_In_Days b) 5), (Z.ltb_spec (Due_In_Days b) 10);
    try lia; cbn; intros Hle; try discriminate;
    try (left; lia); right; (split; [reflexivity | apply Z.leb_le, Hle]).
Qed.

Lemma view_le_trans (a b c : PrioritizedRow) :
  view_le a b -> view_le b c -> view_le a c.
Proof. unfold view_le. lia. Qed.

(** X3: in the returned view the rows due in under 5 days come first,
    then the rows due in 10 days or more, then the rows due in 5 to 9
    days; inside each of the three groups Due_In_Days ascends.  This
    holds between any two rows of the view, not only neighbours. *)
Theorem view_order_by_days (now : Timestamp) (df : DataFrame) :
  exists view,
    fst (prioritize_payments now df) = Returns view /\
    StronglySorted view_le view.
Proof.
  rewrite prioritize_payments_run. simpl. eexists; split; [reflexivity|].
  apply Sorted_StronglySorted; [exact view_le_trans|].
  apply (Sorted_weaken key_le view_le
           (fun row => Priority row = priority_of (Due_In_Days row))).
  - exact key_le_view_le.
  - eapply Permutation_Forall; [apply Permutation_sym, sort_values_permutation|].
    eapply Forall_impl; [|apply (annotate_priority now)]. now intros row [H _].
  - apply sort_values_sorted.
Qed.

Lemma string_compare_refl (s : string) : String.compare s s = Eq.
Proof.
  pose proof (String.compare_antisym s s) as H.
  destruct (String.compare s s); simpl in H; congruence.
Qed.

Lemma same_key_leb (p : string) (due : Z) (x y : PrioritizedRow) :
  same_key p due x = true -> same_key p due y = true -> key_leb x y = true.
Proof.
  unfold same_key, key_leb. intros Hx Hy.
  apply andb_true_iff in Hx. destruct Hx as [Hpx Hdx].
  apply andb_true_iff in Hy. destruct Hy as [Hpy Hdy].
  apply String.eqb_eq in Hpx, Hpy. apply Z.eqb_eq in Hdx, Hdy.
  rewrite Hpx, Hpy, string_compare_refl.
  apply Z.leb_le. lia.
Qed.

Lemma insert_row_same_key (p : string) (due : Z) (x : PrioritizedRow)
    (l : list PrioritizedRow) :
  filter (same_key p due) (insert_row x l) = filter (same_key p due) (x :: l).
Proof.
  induction l as [|y l IH]; [reflexivity|].
  cbn [insert_row]. destruct (key_leb x y) eqn:E; [reflexivity|].
  cbn [filter] in *. rewrite IH.
  destruct (same_key p due x) eqn:Ex, (same_key p due y) eqn:Ey; try reflexivity.
  rewrite (same_key_leb p due x y Ex Ey) in E. discriminate.
Qed.

Lemma sort_values_same_key (p : string) (due : Z) (l : list PrioritizedRow) :
  filter (same_key p due) (sort_values l) = filter (same_key p due) l.
Proof.
  induction l as [|x l IH]; [reflexivity|].
  cbn [sort_values]. rewrite insert_row_same_key. cbn [filter]. now rewrite IH.
Qed.

(** X4: rows with the same Priority and the same Due_In_Days stand in
    the view in the order they have in the table. *)
Theorem ties_keep_table_order (now : Timestamp) (df : DataFrame)
    (p : string) (due : Z) :
  exists view rows,
    prioritize_payments now df = (Returns view, Annotated rows) /\
    filter (same_key p due) view = filter (same_key p due) rows.
Proof.
  rewrite prioritize_payments_run. do 2 eexists. split; [reflexivity|].
  apply sort_values_same_key.
Qed.

(** X5: a later call overwrites the two computed columns: whatever an
    earlier call with another [now] stored, the view, the table and the
    risk summary read from it afterwards are those of the later [now]
    alone. *)
Theorem later_call_overwrites_columns (now1 now2 : Timestamp) (df : DataFrame) :
  let earlier := snd (prioritize_payments now1 df) in
  prioritize_payments now2 earlier = prioritize_payments now2 df /\
  forecast_cash_flow_risks (snd (prioritize_payments now2 earlier))
  = forecast_cash_flow_risks (snd (prioritize_payments now2 df)).
Proof.
  cbv zeta.
  assert (H : prioritize_payments now2 (snd (prioritize_payments now1 df))
              = prioritize_payments now2 df).
  { rewrite (prioritize_payments_run now1 df). simpl snd.
    rewrite !prioritize_payments_run. simpl records.
    now rewrite records_annotate. }
  split; [exact H | now rewrite H].
Qed.

(** ** The reports read the six loaded columns only *)

Lemma detect_anomalies_records (df1 df2 : DataFrame) :
  records df1 = records df2 -> detect_anomalies df1 = detect_anomalies df2.
Proof.
  intros H. unfold detect_anomalies, duplicates, high_amounts. now rewrite H.
Qed.

Lemma daily_pending_records (df1 df2 : DataFrame) :
  records df1 = records df2 -> daily_pending df1 = daily_pending df2.
Proof.
  intros H. unfold daily_pending, pending_mask. now rewrite H.
Qed.

(** X6: [prioritize_payments] changes nothing of what the anomaly check
    and the forecast report: on the table it has annotated they return
    what they return on the table as loaded, whatever the forecasting
    library. *)
Theorem prioritize_leaves_other_reports_unchanged (now : Timestamp) (df : DataFrame) :
  let annotated := snd (prioritize_payments now df) in
  detect_anomalies annotated = detect_anomalies df /\
  forall (Model : Type) (fit : list (Timestamp * Q) -> outcome Model)
         (make_future_dataframe : Model -> nat -> list Timestamp)
         (predict : Model -> list Timestamp -> outcome (list ForecastRow)),
    fst (forecast_future_payments Model fit make_future_dataframe predict annotated)
    = fst (forecast_future_payments Model fit make_future_dataframe predict df).
Proof.
  cbv zeta. rewrite prioritize_payments_run. simpl snd.
  assert (Hrec : records (Annotated (annotate now (records df))) = records df)
    by apply records_annotate.
  split; [now apply detect_anomalies_records|].
  intros Model fit mfd predict.
  rewrite !forecast_future_payments_run.
  rewrite (daily_pending_records _ _ Hrec).
  destruct (fit (daily_pending df)) as [m|e]; [|reflexivity].
  destruct (predict m (mfd m 30%nat)); reflexivity.
Qed.

(** ** detect_anomalies: where the 95th percentile lies *)

Lemma insert_amount_length (x : Q) (l : list Q) :
  List.length (insert_amount x l) = S (List.length l).
Proof.
  induction l as [|y l IH]; simpl; [reflexivity|].
  destruct (Qle_bool x y); simpl; [reflexivity | now rewrite IH].
Qed.

Lemma sort_amounts_length (l : list Q) :
  List.length (sort_amounts l) = List.length l.
Proof.
  induction l as [|x l IH]; simpl; [reflexivity|].
  now rewrite insert_amount_length, IH.
Qed.

Lemma insert_amount_Forall (P : Q -> Prop) (x : Q) (l : list Q) :
  P x -> Forall P l -> Forall P (insert_amount x l).
Proof.
  intros Hx Hl. induction Hl as [|y l Hy Hl IH]; simpl.
  - now repeat constructor.
  - destruct (Qle_bool x y); repeat constructor; assumption.
Qed.

Lemma sort_amounts_Forall (P : Q -> Prop) (l : list Q) :
  Forall P l -> Forall P (sort_amounts l).
Proof.
  induction 1 as [|x l Hx Hl IH]; simpl; [constructor|].
  now apply insert_amount_Forall.
Qed.

(** The two neighbours and the weight [quantile] interpolates with. *)
Lemma quantile_95_shape (vals : list Q) :
  vals <> [] ->
  exists (lo hi : nat) (frac : Q),
    quantile (95 # 100) vals
    = Some (nth lo (sort_amounts vals) 0 +
            (nth hi (sort_amounts vals) 0 - nth lo (sort_amounts vals) 0) * frac)%Q /\
    (lo < List.length vals)%nat /\
    (hi < List.length vals)%nat /\
    (0 <= frac)%Q /\ (frac < 1)%Q /\
    ((2 <= List.length vals)%nat -> (S lo < List.length vals)%nat).
Proof.
  intros Hne. unfold quantile.
  destruct vals as [|v vals]; [congruence|].
  set (all := v :: vals) in *. cbv zeta.
  set (n := Z.of_nat (List.length all)).
  set (pos := ((95 # 100) * inject_Z (n - 1))%Q).
  assert (Hn : 1 <= n) by (unfold n, all; simpl List.length; lia).
  assert (Hm : (0 <= inject_Z (n - 1))%Q).
  { change 0%Q with (inject_Z 0). rewrite <- Zle_Qle. lia. }
  assert (Hpos0 : (0 <= pos)%Q) by (unfold pos; lra).
  assert (Hposm : (pos <= inject_Z (n - 1))%Q) by (unfold pos; lra).
  assert (Hlo0 : 0 <= Qfloor pos).
  { change 0 with (Qfloor 0). now apply Qfloor_resp_le. }
  pose proof (Qfloor_le pos) as Hfl.
  pose proof (Qlt_floor pos) as Hfu.
  rewrite inject_Z_plus in Hfu. change (inject_Z 1) with 1%Q in Hfu.
  assert (Hlom : Qfloor pos <= n - 1).
  { rewrite Zle_Qle. lra. }
  exists (Z.to_nat (Qfloor pos)), (Z.to_nat (Z.min (Qfloor pos + 1) (n - 1))),
         (pos - inject_Z (Qfloor pos))%Q.
  split; [reflexivity|].
  unfold n in *. repeat split; try lia; try lra.
  intros H2.
  assert (Hlt : Qfloor pos < Z.of_nat (List.length all) - 1).
  { rewrite Zlt_Qlt.
    assert (1 <= inject_Z (Z.of_nat (List.length all) - 1))%Q.
    { change 1%Q with (inject_Z 1). rewrite <- Zle_Qle. lia. }
    unfold pos in *. lra. }
  lia.
Qed.

(** The percentile lies between the smallest and the largest amount. *)
Lemma quantile_95_between (vals : list Q) (m M : Q) :
  vals <> [] ->
  Forall (fun x => m <= x <= M)%Q vals ->
  exists t, quantile (95 # 100) vals = Some t /\ (m <= t <= M)%Q.
Proof.
  intros Hne Hall.
  destruct (quantile_95_shape vals Hne) as (lo & hi & frac & Hq & Hlo & Hhi & Hf0 & Hf1 & _).
  eexists; split; [exact Hq|].
  pose proof (sort_amounts_Forall _ _ Hall) as Hs.
  rewrite Forall_forall in Hs.
  assert (Ha := Hs (nth lo (sort_amounts vals) 0%Q)
                   (nth_In _ _ ltac:(rewrite sort_amounts_length; exact Hlo))).
  assert (Hb := Hs (nth hi (sort_amounts vals) 0%Q)
                   (nth_In _ _ ltac:(rewrite sort_amounts_length; exact Hhi))).
  cbv beta in Ha, Hb.
  set (a := nth lo (sort_amounts vals) 0%Q) in *.
  set (b := nth hi (sort_amounts vals) 0%Q) in *.
  split; nra.
Qed.

Lemma filter_none {A} (f : A -> bool) (l : list A) :
  Forall (fun x => f x = false) l -> filter f l = [].
Proof.
  induction 1 as [|x l Hx _ IH]; simpl; [reflexivity|]. now rewrite Hx.
Qed.

Lemma equal_amounts_no_high (df : DataFrame) (c : Q) :
  Forall (fun r => Amount r == c)%Q (records df) -> high_amounts df = [].
Proof.
  intros Heq. rewrite high_amounts_filter.
  destruct (records df) as [|r0 recs] eqn:Erec; [reflexivity|].
  rewrite <- Erec in *.
  destruct (quantile_95_between (map Amount (records df)) c c) as (t & -> & Ht).
  - rewrite Erec. discriminate.
  - apply Forall_map. eapply Forall_impl; [|exact Heq]. simpl. intros r Hr. lra.
  - apply filter_none. eapply Forall_impl; [|exact Heq]. simpl.
    intros r Hr. apply gt_threshold_false. lra.
Qed.

Lemma no_repeated_id_no_duplicates (df : DataFrame) :
  NoDup (map Invoice_ID (records df)) -> is_empty (duplicates df) = true.
Proof.
  intros Hnodup. destruct (is_empty (duplicates df)) eqn:E; [reflexivity|].
  apply duplicates_nonempty in E. destruct E as [i Hi].
  pose proof (proj1 (NoDup_count_occ string_dec _) Hnodup i). lia.
Qed.

(** X7: when all amounts of the table are equal, none is above the 95th
    percentile, so no high-amount message is made; if in addition no id
    is repeated, nothing is reported. *)
Theorem equal_amounts_are_not_flagged (df : DataFrame) (c : Q) :
  Forall (fun r => Amount r == c)%Q (records df) ->
  high_amounts df = [] /\
  (NoDup (map Invoice_ID (records df)) -> detect_anomalies df = []).
Proof.
  intros Heq. pose proof (equal_amounts_no_high df c Heq) as Hhigh.
  split; [exact Hhigh|]. intros Hnodup.
  rewrite detect_anomalies_run, Hhigh, (no_repeated_id_no_duplicates df Hnodup).
  reflexivity.
Qed.

Lemma equal_amounts_witness :
  Forall (fun r => Amount r == 40 # 1)%Q (records unremarkable) /\
  high_amounts unremarkable = [] /\
  (NoDup (map Invoice_ID (records unremarkable)) -> detect_anomalies unremarkable = []).
Proof.
  assert (H : Forall (fun r => Amount r == 40 # 1)%Q (records unremarkable)).
  { repeat constructor. }
  split; [exact H | exact (equal_amounts_are_not_flagged unremarkable (40 # 1) H)].
Defined.

(** X8: a table of fewer than two rows, the empty one included, gives no
    anomaly message at all. *)
Theorem fewer_than_two_rows_no_anomaly (df : DataFrame) :
  (List.length (records df) < 2)%nat -> detect_anomalies df = [].
Proof.
  intros Hlen.
  rewrite detect_anomalies_run.
  assert (Hhigh : high_amounts df = []).
  { destruct (records df) as [|r [|r' recs]] eqn:E; simpl in Hlen; try lia.
    - rewrite high_amounts_filter, E. reflexivity.
    - apply (equal_amounts_no_high df (Amount r)). rewrite E.
      repeat constructor. }
  assert (Hdup : is_empty (duplicates df) = true).
  { apply no_repeated_id_no_duplicates.
    destruct (records df) as [|r [|r' recs]]; simpl in *; try lia;
      repeat constructor; simpl; tauto. }
  now rewrite Hhigh, Hdup.
Qed.

Lemma fewer_than_two_rows_witness :
  (List.length (records one_invoice) < 2)%nat /\ detect_anomalies one_invoice = [].
Proof.
  assert (H : (List.length (records one_invoice) < 2)%nat) by (simpl; lia).
  split; [exact H | exact (fewer_than_two_rows_no_anomaly one_invoice H)].
Defined.

(** ** forecast_cash_flow_risks: which rows count *)

Lemma filter_filter_same {A} (f : A -> bool) (l : list A) :
  filter f (filter f l) = filter f l.
Proof.
  induction l as [|x l IH]; simpl; [reflexivity|].
  destruct (f x) eqn:E; simpl; [rewrite E|]; now rewrite IH.
Qed.

Lemma filter_due_soon_pending (rows : list PrioritizedRow) :
  filter is_due_soon (filter (fun row => is_pending (base row)) rows)
  = filter is_due_soon rows.
Proof.
  induction rows as [|row rows IH]; simpl; [reflexivity|].
  unfold is_due_soon at 2.
  destruct (is_pending (base row)) eqn:E; simpl.
  - unfold is_due_soon at 1. rewrite E. now rewrite IH.
  - now rewrite andb_false_r.
Qed.

(** X10: only rows whose Status is exactly the text Pending count: with
    all other rows taken out of the table the risk summary is the same,
    and so is the daily series the forecast is fitted to. *)
Theorem only_pending_rows_count (rows : list PrioritizedRow) :
  forecast_cash_flow_risks (Annotated (filter (fun row => is_pending (base row)) rows))
  = forecast_cash_flow_risks (Annotated rows) /\
  daily_pending (Annotated (filter (fun row => is_pending (base row)) rows))
  = daily_pending (Annotated rows) /\
  forall row, In row rows -> Status (base row) <> "Pending" ->
              ~ In row (filter (fun row => is_pending (base row)) rows).
Proof.
  split; [|split].
  - rewrite !forecast_cash_flow_risks_run.
    unfold total_pending_of, due_soon_of.
    now rewrite filter_filter_same, filter_due_soon_pending.
  - unfold daily_pending. rewrite !pending_mask_records, !select_map.
    simpl records.
    rewrite <- (filter_map_commute base is_pending rows).
    rewrite <- (filter_map_commute base is_pending
                  (filter (fun row => is_pending (base row)) rows)).
    now rewrite filter_filter_same.
  - intros row _ Hs Hin. apply filter_In in Hin. destruct Hin as [_ Hp].
    unfold is_pending in Hp. apply String.eqb_eq in Hp. contradiction.
Qed.

Lemma all_due_soon_total (rows : list PrioritizedRow) :
  Forall (fun row => is_pending (base row) = true -> Due_In_Days row < 10) rows ->
  due_soon_of rows = total_pending_of rows.
Proof.
  unfold due_soon_of, total_pending_of, is_due_soon.
  induction 1 as [|row rows Hrow _ IH]; simpl; [reflexivity|].
  destruct (is_pending (base row)) eqn:E.
  - rewrite (proj2 (Z.ltb_lt _ _) (Hrow eq_refl)). simpl. now rewrite IH.
  - now rewrite andb_false_r.
Qed.

Lemma none_due_soon_zero (rows : list PrioritizedRow) :
  Forall (fun row => is_pending (base row) = true -> 10 <= Due_In_Days row) rows ->
  due_soon_of rows = 0%Q.
Proof.
  unfold due_soon_of, is_due_soon.
  induction 1 as [|row rows Hrow _ IH]; simpl; [reflexivity|].
  destruct (is_pending (base row)) eqn:E.
  - rewrite (proj2 (Z.ltb_ge _ _) (Hrow eq_refl)). simpl. exact IH.
  - now rewrite andb_false_r.
Qed.

(** X11: on amounts that are not negative and are exact for the library
    (whole numbers adding up to less than 2^53): if every Pending row is
    due in under 10 days and the pending total is positive, the amount
    due soon is the pending total and the level is High; if no Pending
    row is due in under 10 days, the amount due soon is 0 and the level
    is Low.  The pending total is then what the int64 sum gives. *)
Theorem risk_level_at_the_extremes (rows : list PrioritizedRow) :
  Forall (fun row => 0 <= Amount (base row))%Q rows ->
  sums_are_exact (map (fun row => Amount (base row)) rows) ->
  exists r,
    forecast_cash_flow_risks (Annotated rows) = Returns r /\
    (Forall (fun row => is_pending (base row) = true -> Due_In_Days row < 10) rows ->
     (0 < Total_Pending_Amount r)%Q ->
     Amount_Due_Soon r = Total_Pending_Amount r /\ Risk_Level r = "High") /\
    (Forall (fun row => is_pending (base row) = true -> 10 <= Due_In_Days row) rows ->
     Amount_Due_Soon r = 0%Q /\ Risk_Level r = "Low") /\
    (Total_Pending_Amount r ==
       inject_Z (sum_int64 (int64_cells
         (map (fun row => Amount (base row))
              (filter (fun row => is_pending (base row)) rows)))))%Q.
Proof.
  intros Hpos Hexact. rewrite forecast_cash_flow_risks_run.
  eexists; split; [reflexivity|].
  cbn [Risk_Level Total_Pending_Amount Amount_Due_Soon].
  pose proof (due_soon_le_total rows Hpos) as Hle.
  split; [|split].
  - intros Hall Htot. rewrite (all_due_soon_total rows Hall).
    split; [reflexivity|]. apply risk_level_high_iff. lra.
  - intros Hnone. rewrite (none_due_soon_zero rows Hnone) in *.
    split; [reflexivity|]. apply risk_level_low_iff. lra.
  - apply exact_sum_is_int64_sum. now apply sums_are_exact_filter.
Qed.

Lemma risk_level_extremes_witness :
  Forall (fun row => 0 <= Amount (base row))%Q (annotate (day 0) (records one_invoice)) /\
  sums_are_exact (map (fun row => Amount (base row))
                      (annotate (day 0) (records one_invoice))) /\
  exists r,
    forecast_cash_flow_risks (Annotated (annotate (day 0) (records one_invoice)))
    = Returns r /\
    Risk_Level r = "High".
Proof.
  assert (H : Forall (fun row => 0 <= Amount (base row))%Q
                     (annotate (day 0) (records one_invoice))).
  { repeat constructor; vm_compute; discriminate. }
  assert (E : sums_are_exact (map (fun row => Amount (base row))
                                  (annotate (day 0) (records one_invoice)))).
  { split; [repeat constructor | vm_compute; reflexivity]. }
  split; [exact H|]. split; [exact E|].
  destruct (risk_level_at_the_extremes _ H E) as (r & Hr & Hhigh & _).
  exists r. split; [exact Hr|].
  rewrite forecast_cash_flow_risks_run in Hr. injection Hr as <-.
  apply Hhigh.
  - repeat constructor; intros _; vm_compute; reflexivity.
  - vm_compute. reflexivity.
Defined.

(** ** forecast_future_payments: the series and the dates *)

Lemma add_to_group_amount_on (d k : Timestamp) (v : Q) (groups : list (Timestamp * Q)) :
  (amount_on d (add_to_group k v groups)
   == amount_on d groups + (if k =? d then v else 0))%Q.
Proof.
  unfold amount_on.
  induction groups as [|[k' s] rest IH]; simpl.
  - destruct (k =? d); simpl; lra.
  - destruct (Z.ltb_spec k k'); simpl.
    + destruct (k =? d), (k' =? d); simpl; lra.
    + destruct (Z.eqb_spec k k'); simpl.
      * subst k'. destruct (k =? d); simpl; lra.
      * destruct (k' =? d); simpl; rewrite IH; lra.
Qed.

Lemma amount_on_nil (d : Timestamp) : amount_on d [] = 0%Q.
Proof. reflexivity. Qed.

Lemma amount_on_cons (d k : Timestamp) (v : Q) (cells : list (Timestamp * Q)) :
  amount_on d ((k, v) :: cells)
  = if k =? d then (v + amount_on d cells)%Q else amount_on d cells.
Proof. unfold amount_on. simpl. now destruct (k =? d). Qed.

Lemma groupby_sum_amount_on (d : Timestamp) (cells : list (Timestamp * Q)) :
  (amount_on d (groupby_sum cells) == amount_on d cells)%Q.
Proof.
  unfold groupby_sum.
  assert (H : forall groups,
            (amount_on d (fold_left (fun g kv => add_to_group (fst kv) (snd kv) g)
                                    cells groups)
             == amount_on d groups + amount_on d cells)%Q).
  { induction cells as [|[k v] cells IH]; intros groups; cbn [fold_left fst snd].
    - rewrite amount_on_nil. lra.
    - rewrite IH, add_to_group_amount_on, amount_on_cons.
      destruct (k =? d); lra. }
  rewrite H, amount_on_nil. lra.
Qed.

Lemma add_to_group_total (k : Timestamp) (v : Q) (groups : list (Timestamp * Q)) :
  (sum_amounts (map snd (add_to_group k v groups))
   == sum_amounts (map snd groups) + v)%Q.
Proof.
  induction groups as [|[k' s] rest IH]; simpl; [lra|].
  destruct (k <? k'); simpl; [lra|].
  destruct (k =? k'); simpl; [lra | rewrite IH; lra].
Qed.

Lemma groupby_sum_total (cells : list (Timestamp * Q)) :
  (sum_amounts (map snd (groupby_sum cells)) == sum_amounts (map snd cells))%Q.
Proof.
  unfold groupby_sum.
  assert (H : forall groups,
            (sum_amounts (map snd (fold_left
               (fun g kv => add_to_group (fst kv) (snd kv) g) cells groups))
             == sum_amounts (map snd groups) + sum_amounts (map snd cells))%Q).
  { induction cells as [|[k v] cells IH]; intros groups; simpl; [lra|].
    rewrite IH, add_to_group_total. lra. }
  rewrite H. simpl. lra.
Qed.

(** In a series with strictly ascending dates a date stands once, so the
    amounts held for it are the one amount of its row. *)
Lemma amount_on_row (d : Timestamp) (y : Q) (groups : list (Timestamp * Q)) :
  StronglySorted Z.lt (map fst groups) ->
  In (d, y) groups -> (amount_on d groups == y)%Q.
Proof.
  unfold amount_on.
  induction groups as [|[k s] rest IH]; simpl; intros Hs Hin; [destruct Hin|].
  inversion Hs as [|? ? Hrest Hall]; subst.
  destruct Hin as [[= -> ->]|Hin].
  - rewrite Z.eqb_refl. simpl.
    rewrite filter_none; [simpl; lra|].
    apply Forall_forall. intros [k' s'] Hk'. simpl.
    rewrite Forall_forall in Hall.
    specialize (Hall k' (in_map fst _ _ Hk')). simpl in Hall.
    apply Z.eqb_neq. lia.
  - destruct (Z.eqb_spec k d) as [->|Hne].
    + rewrite Forall_forall in Hall.
      specialize (Hall d (in_map fst _ _ Hin)). simpl in Hall. lia.
    + now apply IH.
Qed.

Lemma pending_cells (df : DataFrame) :
  select (pending_mask df) (map (fun r => (Invoice_Date r, Amount r)) (records df))
  = map (fun r => (Invoice_Date r, Amount r)) (filter is_pending (records df)).
Proof. rewrite pending_mask_records. apply select_map. Qed.

Lemma amount_on_records (d : Timestamp) (recs : list InvoiceRecord) :
  amount_on d (map (fun r => (Invoice_Date r, Amount r)) recs)
  = sum_amounts (map Amount (filter (fun r => Invoice_Date r =? d) recs)).
Proof.
  unfold amount_on. induction recs as [|r recs IH]; simpl; [reflexivity|].
  destruct (Invoice_Date r =? d); simpl; now rewrite IH.
Qed.

(** X12: on amounts that are exact for the library (whole numbers
    adding up to less than 2^53) the daily series conserves the amounts:
    the row of a date carries the sum of the amounts of the Pending rows
    of that date, which is also their int64 sum, and the rows together
    carry the pending total of the risk summary. *)
Theorem daily_series_sums_pending_amounts (df : DataFrame) :
  sums_are_exact (map Amount (records df)) ->
  (forall d y,
     In (d, y) (daily_pending df) ->
     let on_that_date :=
       map Amount (filter (fun r => Invoice_Date r =? d)
                          (filter is_pending (records df))) in
     (y == sum_amounts on_that_date)%Q /\
     (y == inject_Z (sum_int64 (int64_cells on_that_date)))%Q) /\
  (sum_amounts (map snd (daily_pending df))
   == sum_amounts (map Amount (filter is_pending (records df))))%Q.
Proof.
  intros Hexact. split.
  - intros d y Hin. cbv zeta.
    assert (Hy : (y == sum_amounts (map Amount
                        (filter (fun r => Invoice_Date r =? d)
                                (filter is_pending (records df)))))%Q).
    { destruct (daily_pending_dates df) as [Hsorted _].
      rewrite <- (amount_on_row d y (daily_pending df) Hsorted Hin).
      unfold daily_pending. rewrite groupby_sum_amount_on, pending_cells.
      rewrite amount_on_records. reflexivity. }
    split; [exact Hy|]. rewrite Hy.
    apply exact_sum_is_int64_sum.
    apply sums_are_exact_filter. now apply sums_are_exact_filter.
  - unfold daily_pending. rewrite groupby_sum_total, pending_cells.
    rewrite map_map. simpl. reflexivity.
Qed.

Lemma daily_series_witness :
  sums_are_exact (map Amount (records two_invoices)) /\
  In (day (-3), 40 # 1) (daily_pending two_invoices) /\
  (40 # 1 == sum_amounts (map Amount
                (filter (fun r => Invoice_Date r =? day (-3))
                        (filter is_pending (records two_invoices)))))%Q.
Proof.
  assert (E : sums_are_exact (map Amount (records two_invoices))).
  { split; [repeat constructor | vm_compute; reflexivity]. }
  assert (H : In (day (-3), 40 # 1) (daily_pending two_invoices)).
  { vm_compute. left. reflexivity. }
  split; [exact E|]. split; [exact H|].
  exact (proj1 (proj1 (daily_series_sums_pending_amounts two_invoices E) _ _ H)).
Defined.

Lemma last_In_nonempty (l : list Z) (d : Z) : l <> [] -> In (last l d) l.
Proof.
  induction l as [|x l IH]; [congruence|]. intros _.
  destruct l as [|y l]; [now left|].
  right. apply IH. discriminate.
Qed.



Section ForecastDates.

Variable Model : Type.
Variable fit : list (Timestamp * Q) -> outcome Model.
Variable history_dates : Model -> list Timestamp.
Variable make_future_dataframe : Model -> nat -> list Timestamp.
Variable predict : Model -> list Timestamp -> outcome (list ForecastRow).

Hypothesis contract :
  prophet_contract Model fit history_dates make_future_dataframe predict.

Lemma forecast_dates_of_run
    (df df' : DataFrame) (rows : list ForecastRow) (model : Model) :
  forecast_future_payments Model fit make_future_dataframe predict df
  = (Returns (rows, model), df') ->
  exists history latest,
    map ds rows = (history ++ following_days latest 30)%list /\
    StronglySorted Z.lt history /\
    (forall x, In x history <-> In x (pending_dates df)) /\
    In latest (pending_dates df) /\
    (forall x, In x (pending_dates df) -> x <= latest) /\
    (2 <= distinct_pending_dates df)%nat.
Proof.
  rewrite forecast_future_payments_run.
  destruct (fit (daily_pending df)) as [m|e] eqn:Hfit; [|discriminate].
  destruct (predict m (make_future_dataframe m 30)) as [out|e] eqn:Hpred;
    [|discriminate].
  intros [= -> -> _].
  destruct (daily_pending_dates df) as [Hsorted Hin].
  pose proof (fit_keeps_dates _ _ _ _ _ contract _ _ Hfit Hsorted) as Hhist.
  pose proof (predict_row_per_date _ _ _ _ _ contract _ _ _ Hpred) as Hrows.
  rewrite (future_dates _ _ _ _ _ contract), Hhist in Hrows.
  assert (Htwo : (2 <= distinct_pending_dates df)%nat).
  { destruct (Nat.lt_ge_cases (distinct_pending_dates df) 2) as [Hlt|Hge];
      [|exact Hge].
    rewrite <- daily_pending_length in Hlt.
    rewrite (fit_needs_two_rows _ _ _ _ _ contract _ Hlt) in Hfit. discriminate. }
  assert (Hne : map fst (daily_pending df) <> []).
  { intros E. apply map_eq_nil_iff in E.
    rewrite <- daily_pending_length, E in Htwo. simpl in Htwo. lia. }
  exists (map fst (daily_pending df)), (last (map fst (daily_pending df)) 0).
  split; [exact Hrows|]. split; [exact Hsorted|]. split; [exact Hin|].
  split; [apply Hin, last_In_nonempty, Hne|].
  split; [|exact Htwo].
  intros x Hx. apply strictly_ascending_last; [exact Hsorted | now apply Hin].
Qed.

(** X13: when the call returns, the dates of the forecast are the
    distinct dates of the Pending rows, ascending, followed by the 30
    days after the latest of them; there were at least two such dates. *)
Theorem forecast_dates_are_history_then_30_days
    (df df' : DataFrame) (rows : list ForecastRow) (model : Model) :
  forecast_future_payments Model fit make_future_dataframe predict df
  = (Returns (rows, model), df') ->
  exists history latest,
    map ds rows = (history ++ following_days latest 30)%list /\
    StronglySorted Z.lt history /\
    (forall x, In x history <-> In x (pending_dates df)) /\
    In latest (pending_dates df) /\
    (forall x, In x (pending_dates df) -> x <= latest) /\
    (2 <= distinct_pending_dates df)%nat.
Proof. exact (forecast_dates_of_run df df' rows model). Qed.

End ForecastDates.

Lemma forecast_dates_witness :
  exists rows model history latest,
    Naive.forecast two_invoices = (Returns (rows, model), two_invoices) /\
    map ds rows = (history ++ following_days latest 30)%list /\
    In latest (pending_dates two_invoices).
Proof.
  destruct (Naive.forecast two_invoices) as [[[rows model]|e] df'] eqn:Hrun;
    [|vm_compute in Hrun; discriminate Hrun].
  pose proof (forecast_leaves_frame Naive.Model Naive.fit
                Naive.make_future_dataframe Naive.predict two_invoices) as Hdf.
  fold Naive.forecast in Hdf. rewrite Hrun in Hdf. simpl in Hdf. subst df'.
  destruct (forecast_dates_are_history_then_30_days
              Naive.Model Naive.fit Naive.history_dates Naive.make_future_dataframe
              Naive.predict naive_contract two_invoices two_invoices rows model Hrun)
    as (history & latest & Hds & _ & _ & Hlatest & _).
  exists rows, model, history, latest. repeat split; assumption.
Defined.

(** ** main: the page of a run *)

Lemma for_each_warning (anomalies : list string) (df : DataFrame) (page : list widget) :
  for_each (fun anomaly => show (st_warning anomaly)) anomalies (df, page)
  = (Returns tt, (df, (page ++ map st_warning anomalies)%list)).
Proof.
  revert page. induction anomalies as [|a anomalies IH]; intros page; simpl.
  - unfold page_ret. now rewrite app_nil_r.
  - unfold page_bind, show. simpl. rewrite IH. now rewrite <- app_assoc.
Qed.

Lemma anomaly_widgets_run (anomalies : list string) (df : DataFrame) (page : list widget) :
  (if negb (is_empty anomalies)
   then for_each (fun anomaly => show (st_warning anomaly)) anomalies
   else show (st_success "No anomalies detected.")) (df, page)
  = (Returns tt, (df, (page ++ anomaly_widgets anomalies)%list)).
Proof.
  unfold anomaly_widgets. destruct (is_empty anomalies); simpl.
  - reflexivity.
  - apply for_each_warning.
Qed.

Section MainProperties.

Variable Model : Type.
Variable fit : list (Timestamp * Q) -> outcome Model.
Variable history_dates : Model -> list Timestamp.
Variable make_future_dataframe : Model -> nat -> list Timestamp.
Variable predict : Model -> list Timestamp -> outcome (list ForecastRow).

Local Abbreviation run :=
  (run_main Model fit make_future_dataframe predict).

(** Down to line 92 a run cannot fail; the forecasting section then
    starts on the annotated frame and the page made so far. *)
Lemma run_main_reaches_forecasting (file : list InvoiceRecord) (now : Timestamp)
    (clicked : bool) :
  run file now clicked
  = forecasting_section Model fit make_future_dataframe predict clicked
      (Annotated (annotate now file), page_before_forecast file now).
Proof.
  unfold run_main, main, page_bind, show, call, load_data, put_frame, get_frame, lift.
  cbn [fst snd app head].
  rewrite prioritize_payments_run. cbn [fst snd records].
  rewrite anomaly_widgets_run.
  rewrite forecast_cash_flow_risks_run.
  cbn [fst snd Total_Pending_Amount Amount_Due_Soon Risk_Level].
  rewrite (detect_anomalies_records (Annotated (annotate now file)) (Loaded file)
             (records_annotate now file)).
  unfold page_before_forecast. cbn [app].
  rewrite <- !app_assoc. reflexivity.
Qed.

Lemma success_widget_iff (anomalies : list string) :
  In (st_success "No anomalies detected.") (anomaly_widgets anomalies)
  <-> anomalies = [].
Proof.
  unfold anomaly_widgets. destruct anomalies as [|a l]; simpl.
  - intuition.
  - split; [|discriminate].
    intros [H|H]; [discriminate|].
    apply in_map_iff in H. destruct H as [x [H _]]. discriminate.
Qed.

Lemma warning_widget_iff (anomalies : list string) (text : string) :
  In (st_warning text) (anomaly_widgets anomalies) <-> In text anomalies.
Proof.
  unfold anomaly_widgets. destruct anomalies as [|a l].
  - simpl. split; [intros [H|[]]; discriminate | intros []].
  - cbn [is_empty negb]. rewrite in_map_iff. split.
    + intros [x [[= ->] Hx]]. exact Hx.
    + intros H. now exists text.
Qed.

(** X14: on a file that loads and whose rows are well-typed (every date
    parses, every amount is a number), a run without a click on the
    button returns, whatever the forecasting library does, since it
    never calls it, and shows no forecast.  The notice that no anomalies
    were detected is on the page exactly when [detect_anomalies] reports
    nothing; otherwise there is one warning for each message it
    reports, and no others. *)
Theorem page_without_click (file : list InvoiceRecord) (now : Timestamp) :
  exists page,
    run file now false = (Returns tt, (Annotated (annotate now file), page)) /\
    (In (st_success "No anomalies detected.") page
     <-> detect_anomalies (load_data file) = []) /\
    (forall text, In (st_warning text) page
                  <-> In text (detect_anomalies (load_data file))) /\
    (forall rows, ~ In (st_dataframe_forecast rows) page) /\
    (forall rows, ~ In (st_pyplot rows) page).
Proof.
  rewrite run_main_reaches_forecasting. cbn [forecasting_section]. unfold page_ret.
  eexists; split; [reflexivity|].
  unfold page_before_forecast, load_data.
  split; [|split; [|split]].
  - rewrite <- success_widget_iff, !in_app_iff. cbn [In].
    intuition discriminate.
  - intros text. rewrite <- warning_widget_iff, !in_app_iff. cbn [In].
    intuition discriminate.
  - intros rows. rewrite !in_app_iff. cbn [In].
    assert (Hw : ~ In (st_dataframe_forecast rows)
                      (anomaly_widgets (detect_anomalies (Loaded file)))).
    { unfold anomaly_widgets. destruct (detect_anomalies (Loaded file)); simpl.
      - intros [H|[]]; discriminate.
      - intros [H|H]; [discriminate|].
        apply in_map_iff in H. destruct H as [x [H _]]. discriminate. }
    intuition discriminate.
  - intros rows. rewrite !in_app_iff. cbn [In].
    assert (Hw : ~ In (st_pyplot rows)
                      (anomaly_widgets (detect_anomalies (Loaded file)))).
    { unfold anomaly_widgets. destruct (detect_anomalies (Loaded file)); simpl.
      - intros [H|[]]; discriminate.
      - intros [H|H]; [discriminate|].
        apply in_map_iff in H. destruct H as [x [H _]]. discriminate. }
    intuition discriminate.
Qed.

Hypothesis contract :
  prophet_contract Model fit history_dates make_future_dataframe predict.



End MainProperties.


